(** * PrintJob: the print-job lifecycle coordinator

    A shallow embedding of [src/browser/printing/print_job.cc] and the
    properties of its start / cancel / stop / flush protocol.

    The coordinator lives on one thread (the UI message loop).  Everything it
    touches outside its own fields is made explicit in a [World]: the task
    queue and timers of the UI loop, the nesting of [MessageLoop::Run], the
    background pool, the log of published notifications, and the worker
    handle it owns.  Every C++ member function becomes a function on
    [World]; a function that dereferences [worker_] without a null test
    returns [None] where the C++ would dereference a null [scoped_ptr].

    [DCHECK]s expand to nothing in a release build and are not modelled;
    the [scoped_refptr<PrintJob> handle(this)] locals only extend the
    lifetime of the object and have no counterpart here, since destruction
    is outside the model. *)

From Stdlib Require Import ZArith List Bool Lia PeanoNat.
Import ListNotations.

Set Implicit Arguments.

(** ** Small option monad for the fallible operations *)

Definition bind {A B : Type} (m : option A) (k : A -> option B) : option B :=
  match m with
  | Some a => k a
  | None => None
  end.

Notation "x <- m ;; k" := (bind m (fun x => k))
  (at level 61, m at next level, right associativity).

(** ** Event payload *)

Module JobEventDetails.

(** [JobEventDetails::Type], the cases of the switch in
    [PrintJob::OnNotifyPrintJobEvent]. *)
Inductive Type_ : Set :=
| USER_INIT_DONE
| USER_INIT_CANCELED
| DEFAULT_INIT_DONE
| NEW_DOC
| NEW_PAGE
| PAGE_DONE
| DOC_DONE
| JOB_DONE
| ALL_PAGES_REQUESTED
| FAILED.

(** The payload holds raw pointers; a pointer is the address of the object
    or [None] for [NULL]. *)
Record t : Set := mk {
  type : Type_;
  document : option nat;
  page : option nat
}.

End JobEventDetails.

(** The [int type] argument of [Observe]. *)
Inductive NotificationType : Set :=
| NOTIFICATION_PRINT_JOB_EVENT
| NOTIFICATION_OTHER (code : Z).

(** ** The worker handle

    Modelled from the spec: [PrintJobWorker] (print_job_worker.h) is not
    part of this file.  The coordinator uses four things of it: whether
    [message_loop()] is non-null (the worker thread is alive), posting a
    task to that loop, the direct call [Cancel()], and [StopSoon()] /
    [Stop()], after which the thread has exited and [message_loop()] is
    null.  The record keeps what the coordinator did to the handle. *)

Inductive WorkerTask : Set :=
| Worker_StartPrinting (doc : option nat)
| Worker_OnDocumentChanged (doc : option nat).

Record PrintJobWorker : Set := mkWorker {
  loop_alive : bool;
  posted : list WorkerTask;
  cancel_calls : nat
}.

Definition worker_PostTask (t : WorkerTask) (wk : PrintJobWorker) : PrintJobWorker :=
  mkWorker (loop_alive wk) (posted wk ++ [t]) (cancel_calls wk).

Definition worker_Cancel (wk : PrintJobWorker) : PrintJobWorker :=
  mkWorker (loop_alive wk) (posted wk) (S (cancel_calls wk)).

(** Modelled from the spec: [StopSoon()] followed by the wait for the
    thread handle, and the blocking [Stop()], both end with the worker
    thread terminated. *)
Definition worker_Stop (wk : PrintJobWorker) : PrintJobWorker :=
  mkWorker false (posted wk) (cancel_calls wk).

(** ** Tasks of the UI loop and of the background pool *)

(** Closures the coordinator posts to its own loop. *)
Inductive Task : Set :=
| Task_OnDocumentDone
| Task_HoldUntilStopIsCalled.

(** The one operation submitted with [WorkerPool::PostTaskAndReply]:
    [PrintJobWorker::Stop] with the reply [HoldUntilStopIsCalled].  The
    operation records what [is_stopping_] was when it was handed to the
    pool, which is what a pool thread starting on it at once finds. *)
Inductive PoolTask : Set :=
| Pool_WorkerStop (stopping_at_submission : bool).

(** A delayed [PrintJob::Quit] closure: due time and the generation of
    [quit_factory_] its weak pointer was taken from. *)
Record DelayedQuit : Set := mkDelayed {
  due : Z;
  bound_gen : nat
}.

Fixpoint insert_delayed (d : DelayedQuit) (l : list DelayedQuit) : list DelayedQuit :=
  match l with
  | [] => [d]
  | x :: rest =>
      if (due d <? due x)%Z then d :: l else x :: insert_delayed d rest
  end.

Section Coordinator.

(** [printing::PrintSettings] is declared outside this file; its value
    type, the value built by its default constructor and its [Clear()]
    are parameters. *)
Variable PrintSettings : Type.
Variable settings_new : PrintSettings.
Variable settings_Clear : PrintSettings -> PrintSettings.

(** The [#if defined(OS_WIN)] of [ControlledWorkerShutdown]. *)
Variable OS_WIN : bool.

(** ** Data model *)

(** A [PrintedDocument] as far as the coordinator reads it, together
    with the address that identifies the object. *)
Record PrintedDocument : Type := mkDocument {
  doc_addr : nat;
  doc_settings : PrintSettings;
  doc_source : option nat;
  doc_cookie : Z;
  doc_page_count : Z
}.

(** The argument [job] of [Initialize]: what [DetachWorker], [settings]
    and [cookie] return. *)
Record PrintJobWorkerOwner : Type := mkOwner {
  owner_worker : option PrintJobWorker;
  owner_settings : PrintSettings;
  owner_cookie : Z
}.

(** The data members of [PrintJob].  [quit_factory_] is the generation
    of its weak pointers ([InvalidateWeakPtrs] starts a new one), and
    [registrar_] tells whether the job observes its own notifications. *)
Record PrintJob : Type := mkJob {
  source_ : option nat;
  worker_ : option PrintJobWorker;
  settings_ : PrintSettings;
  document_ : option PrintedDocument;
  is_job_pending_ : bool;
  is_canceling_ : bool;
  is_stopping_ : bool;
  is_stopped_ : bool;
  quit_factory_ : nat;
  registrar_ : bool
}.

(** A notification as the service hands it out: the payload and the
    coordinator as every observer sees it at that moment. *)
Record Publication : Type := mkPub {
  pub_details : JobEventDetails.t;
  pub_job : PrintJob
}.

(** The coordinator and its surroundings.  [run_stack] has one entry per
    active [MessageLoop::Run], innermost first: its [quit_received]. *)
Record World : Type := mkWorld {
  job : PrintJob;
  ui_queue : list Task;
  ui_delayed : list DelayedQuit;
  ui_now : Z;
  run_stack : list bool;
  pool : list PoolTask;
  published : list Publication;
  next_addr : nat
}.

(** *** Field updates *)

Definition set_source_ (v : option nat) (j : PrintJob) : PrintJob :=
  mkJob v (worker_ j) (settings_ j) (document_ j) (is_job_pending_ j)
        (is_canceling_ j) (is_stopping_ j) (is_stopped_ j) (quit_factory_ j)
        (registrar_ j).

Definition set_worker_ (v : option PrintJobWorker) (j : PrintJob) : PrintJob :=
  mkJob (source_ j) v (settings_ j) (document_ j) (is_job_pending_ j)
        (is_canceling_ j) (is_stopping_ j) (is_stopped_ j) (quit_factory_ j)
        (registrar_ j).

Definition set_settings_ (v : PrintSettings) (j : PrintJob) : PrintJob :=
  mkJob (source_ j) (worker_ j) v (document_ j) (is_job_pending_ j)
        (is_canceling_ j) (is_stopping_ j) (is_stopped_ j) (quit_factory_ j)
        (registrar_ j).

Definition set_document_ (v : option PrintedDocument) (j : PrintJob) : PrintJob :=
  mkJob (source_ j) (worker_ j) (settings_ j) v (is_job_pending_ j)
        (is_canceling_ j) (is_stopping_ j) (is_stopped_ j) (quit_factory_ j)
        (registrar_ j).

Definition set_is_job_pending_ (v : bool) (j : PrintJob) : PrintJob :=
  mkJob (source_ j) (worker_ j) (settings_ j) (document_ j) v
        (is_canceling_ j) (is_stopping_ j) (is_stopped_ j) (quit_factory_ j)
        (registrar_ j).

Definition set_is_canceling_ (v : bool) (j : PrintJob) : PrintJob :=
  mkJob (source_ j) (worker_ j) (settings_ j) (document_ j) (is_job_pending_ j)
        v (is_stopping_ j) (is_stopped_ j) (quit_factory_ j) (registrar_ j).

Definition set_is_stopping_ (v : bool) (j : PrintJob) : PrintJob :=
  mkJob (source_ j) (worker_ j) (settings_ j) (document_ j) (is_job_pending_ j)
        (is_canceling_ j) v (is_stopped_ j) (quit_factory_ j) (registrar_ j).

Definition set_is_stopped_ (v : bool) (j : PrintJob) : PrintJob :=
  mkJob (source_ j) (worker_ j) (settings_ j) (document_ j) (is_job_pending_ j)
        (is_canceling_ j) (is_stopping_ j) v (quit_factory_ j) (registrar_ j).

Definition set_quit_factory_ (v : nat) (j : PrintJob) : PrintJob :=
  mkJob (source_ j) (worker_ j) (settings_ j) (document_ j) (is_job_pending_ j)
        (is_canceling_ j) (is_stopping_ j) (is_stopped_ j) v (registrar_ j).

Definition set_registrar_ (v : bool) (j : PrintJob) : PrintJob :=
  mkJob (source_ j) (worker_ j) (settings_ j) (document_ j) (is_job_pending_ j)
        (is_canceling_ j) (is_stopping_ j) (is_stopped_ j) (quit_factory_ j) v.

Definition with_job (f : PrintJob -> PrintJob) (w : World) : World :=
  mkWorld (f (job w)) (ui_queue w) (ui_delayed w) (ui_now w) (run_stack w)
          (pool w) (published w) (next_addr w).

Definition set_ui_queue (v : list Task) (w : World) : World :=
  mkWorld (job w) v (ui_delayed w) (ui_now w) (run_stack w) (pool w)
          (published w) (next_addr w).

Definition set_ui_delayed (v : list DelayedQuit) (w : World) : World :=
  mkWorld (job w) (ui_queue w) v (ui_now w) (run_stack w) (pool w)
          (published w) (next_addr w).

Definition set_ui_now (v : Z) (w : World) : World :=
  mkWorld (job w) (ui_queue w) (ui_delayed w) v (run_stack w) (pool w)
          (published w) (next_addr w).

Definition set_run_stack (v : list bool) (w : World) : World :=
  mkWorld (job w) (ui_queue w) (ui_delayed w) (ui_now w) v (pool w)
          (published w) (next_addr w).

Definition set_pool (v : list PoolTask) (w : World) : World :=
  mkWorld (job w) (ui_queue w) (ui_delayed w) (ui_now w) (run_stack w) v
          (published w) (next_addr w).

Definition set_published (v : list Publication) (w : World) : World :=
  mkWorld (job w) (ui_queue w) (ui_delayed w) (ui_now w) (run_stack w)
          (pool w) v (next_addr w).

Definition set_next_addr (v : nat) (w : World) : World :=
  mkWorld (job w) (ui_queue w) (ui_delayed w) (ui_now w) (run_stack w)
          (pool w) (published w) v.

(** ** Collaborators on the UI thread

    The message loop, the weak-pointer factory, the worker pool and the
    notification service are libraries outside this file; each is modelled
    by what the coordinator relies on. *)

(** Modelled from the spec: [MessageLoop::current()->PostTask] appends to
    the cooperative task queue of the coordinator thread. *)
Definition PostTask (t : Task) (w : World) : World :=
  set_ui_queue (ui_queue w ++ [t]) w.

(** Modelled from the spec: [MessageLoop::current()->PostDelayedTask] of
    the [Quit] closure bound to [quit_factory_.GetWeakPtr()], a cancelable
    weak reference; timers are kept in the order in which they are due. *)
Definition PostDelayedQuit (timeout : Z) (w : World) : World :=
  set_ui_delayed
    (insert_delayed (mkDelayed (ui_now w + timeout) (quit_factory_ (job w)))
                    (ui_delayed w)) w.

(** Modelled from the spec: [quit_factory_.HasWeakPtrs()], some closure
    still holds a weak pointer of the current generation. *)
Definition HasWeakPtrs (w : World) : bool :=
  existsb (fun d => bound_gen d =? quit_factory_ (job w)) (ui_delayed w).

(** Modelled from the spec: [quit_factory_.InvalidateWeakPtrs()] turns
    the outstanding closures into no-ops. *)
Definition InvalidateWeakPtrs (w : World) : World :=
  with_job (fun j => set_quit_factory_ (S (quit_factory_ j)) j) w.

(** Modelled from the spec: [MessageLoop::Quit] marks the innermost
    [Run]; outside of any [Run] there is nothing to mark. *)
Definition MessageLoop_Quit (w : World) : World :=
  match run_stack w with
  | [] => w
  | _ :: outer => set_run_stack (true :: outer) w
  end.

(** Modelled from the spec: [WorkerPool::PostTaskAndReply] hands the
    operation to the background pool. *)
Definition WorkerPool_PostTaskAndReply (t : bool -> PoolTask) (w : World)
  : World :=
  set_pool (pool w ++ [t (is_stopping_ (job w))]) w.

(** ** PrintJob *)

(** The constructor. *)
Definition PrintJob_new : PrintJob :=
  mkJob None None settings_new None false false false false 0 false.

Definition World_new : World :=
  mkWorld PrintJob_new [] [] 0%Z [] [] [] 0.

(** Pointer comparison [document_.get() == new_document]. *)
Definition same_document (a b : option PrintedDocument) : bool :=
  match a, b with
  | None, None => true
  | Some x, Some y => doc_addr x =? doc_addr y
  | _, _ => false
  end.

Definition document_ptr (d : option PrintedDocument) : option nat :=
  option_map doc_addr d.

Definition worker_thread_alive (j : PrintJob) : bool :=
  match worker_ j with
  | Some wk => loop_alive wk
  | None => false
  end.

Definition settings (j : PrintJob) : PrintSettings := settings_ j.

Definition cookie (j : PrintJob) : Z :=
  match document_ j with
  | None => 0%Z
  | Some d => doc_cookie d
  end.

Definition is_job_pending (j : PrintJob) : bool := is_job_pending_ j.
Definition is_stopping (j : PrintJob) : bool := is_stopping_ j.
Definition is_stopped (j : PrintJob) : bool := is_stopped_ j.
Definition document (j : PrintJob) : option PrintedDocument := document_ j.

Definition UpdatePrintedDocument (new_document : option PrintedDocument)
           (w : World) : World :=
  if same_document (document_ (job w)) new_document then w
  else
    let w1 := with_job (set_document_ new_document) w in
    let w2 :=
      match document_ (job w1) with
      | Some d => with_job (set_settings_ (doc_settings d)) w1
      | None => w1
      end in
    match worker_ (job w2) with
    | Some wk =>
        if loop_alive wk then
          with_job
            (set_worker_
               (Some (worker_PostTask
                        (Worker_OnDocumentChanged
                           (document_ptr (document_ (job w2)))) wk))) w2
        else w2
    | None => w2
    end.

Definition HoldUntilStopIsCalled (w : World) : World :=
  with_job (fun j => set_is_stopping_ false (set_is_stopped_ true j)) w.

Definition Quit (w : World) : World := MessageLoop_Quit w.

Definition ControlledWorkerShutdown (w : World) : option World :=
  w1 <- (if OS_WIN then
           match worker_ (job w) with
           | Some wk => Some (with_job (set_worker_ (Some (worker_Stop wk))) w)
           | None => None
           end
         else Some w) ;;
  let w2 := with_job (set_is_stopping_ true) w1 in
  Some (WorkerPool_PostTaskAndReply Pool_WorkerStop w2).

Definition Stop (w : World) : option World :=
  let w1 :=
    if HasWeakPtrs w then InvalidateWeakPtrs (Quit w) else w in
  match worker_ (job w1) with
  | None => None
  | Some wk =>
      w2 <- (if loop_alive wk then
               w' <- ControlledWorkerShutdown w1 ;;
               Some (with_job
                       (fun j => set_registrar_ false
                                   (set_is_job_pending_ false j)) w')
             else Some w1) ;;
      Some (UpdatePrintedDocument None w2)
  end.

Definition OnNotifyPrintJobEvent (event_details : JobEventDetails.t)
           (w : World) : option World :=
  match JobEventDetails.type event_details with
  | JobEventDetails.FAILED =>
      Stop (with_job (fun j => set_settings_ (settings_Clear (settings_ j)) j) w)
  | JobEventDetails.USER_INIT_DONE
  | JobEventDetails.DEFAULT_INIT_DONE
  | JobEventDetails.USER_INIT_CANCELED => Some w
  | JobEventDetails.NEW_DOC
  | JobEventDetails.NEW_PAGE
  | JobEventDetails.PAGE_DONE
  | JobEventDetails.JOB_DONE
  | JobEventDetails.ALL_PAGES_REQUESTED => Some w
  | JobEventDetails.DOC_DONE => Some (PostTask Task_OnDocumentDone w)
  end.

Definition Observe (type : NotificationType)
           (details : JobEventDetails.t) (w : World) : option World :=
  match type with
  | NOTIFICATION_PRINT_JOB_EVENT => OnNotifyPrintJobEvent details w
  | NOTIFICATION_OTHER _ => Some w
  end.

(** Modelled from the spec: [NotificationService::current()->Notify] with
    the job as source.  The notification is handed out, and the job
    receives it through [Observe] while it is registered; what other
    observers do with it is outside the model. *)
Definition Notify (details : JobEventDetails.t) (w : World) : option World :=
  let w1 := set_published (published w ++ [mkPub details (job w)]) w in
  if registrar_ (job w1) then Observe NOTIFICATION_PRINT_JOB_EVENT details w1
  else Some w1.

Definition Initialize (owner : PrintJobWorkerOwner) (source : option nat)
           (page_count : Z) (w : World) : World :=
  let w1 := with_job (set_source_ source) w in
  let w2 := with_job (set_worker_ (owner_worker owner)) w1 in
  let w3 := with_job (set_settings_ (owner_settings owner)) w2 in
  let new_doc :=
    mkDocument (next_addr w3) (settings_ (job w3)) (source_ (job w3))
               (owner_cookie owner) page_count in
  let w4 := set_next_addr (S (next_addr w3)) w3 in
  let w5 := UpdatePrintedDocument (Some new_doc) w4 in
  with_job (set_registrar_ true) w5.

Definition StartPrinting (w : World) : option World :=
  match worker_ (job w) with
  | None => None
  | Some wk =>
      if negb (loop_alive wk) || is_job_pending_ (job w) then Some w
      else
        let w1 :=
          with_job
            (set_worker_
               (Some (worker_PostTask
                        (Worker_StartPrinting
                           (document_ptr (document_ (job w)))) wk))) w in
        let w2 := with_job (set_is_job_pending_ true) w1 in
        Notify (JobEventDetails.mk JobEventDetails.NEW_DOC
                                   (document_ptr (document_ (job w2))) None) w2
  end.

Definition Cancel (w : World) : option World :=
  if is_canceling_ (job w) then Some w
  else
    let w1 := with_job (set_is_canceling_ true) w in
    let w2 :=
      match worker_ (job w1) with
      | Some wk =>
          if loop_alive wk then
            with_job (set_worker_ (Some (worker_Cancel wk))) w1
          else w1
      | None => w1
      end in
    w3 <- Notify (JobEventDetails.mk JobEventDetails.FAILED None None) w2 ;;
    w4 <- Stop w3 ;;
    Some (with_job (set_is_canceling_ false) w4).

Definition DisconnectSource (w : World) : World :=
  let w1 := with_job (set_source_ None) w in
  match document_ (job w1) with
  | Some d =>
      with_job
        (set_document_
           (Some (mkDocument (doc_addr d) (doc_settings d) None
                             (doc_cookie d) (doc_page_count d)))) w1
  | None => w1
  end.

Definition OnDocumentDone (w : World) : option World :=
  w1 <- Stop w ;;
  Notify (JobEventDetails.mk JobEventDetails.JOB_DONE
                             (document_ptr (document_ (job w1))) None) w1.

(** ** The UI loop, the pool and the callers

    What happens to the coordinator between two of its member functions
    is decided outside of it.  An [Action] is one such event: a caller
    invoking a public member function, the loop running its next task or
    its next timer, the pool finishing an operation, the worker
    broadcasting an event.  An action that is not enabled leaves the
    world as it is. *)

Inductive Action : Type :=
| Call_Initialize (owner : PrintJobWorkerOwner) (source : option nat)
                  (page_count : Z)
| Call_StartPrinting
| Call_Stop
| Call_Cancel
| Call_DisconnectSource
| Call_Observe (type : NotificationType) (details : JobEventDetails.t)
| Enter_FlushJob (timeout : Z)
| Leave_FlushJob
| Loop_RunTask
| Loop_FireTimer
| Pool_Completes
| Worker_Notifies (details : JobEventDetails.t).

Definition run_task (t : Task) (w : World) : option World :=
  match t with
  | Task_OnDocumentDone => OnDocumentDone w
  | Task_HoldUntilStopIsCalled => Some (HoldUntilStopIsCalled w)
  end.

(** Modelled from the spec: the loop takes the task at the head of its
    queue and runs it. *)
Definition loop_run_task (w : World) : option World :=
  match ui_queue w with
  | [] => Some w
  | t :: rest => run_task t (set_ui_queue rest w)
  end.

(** Modelled from the spec: the earliest timer fires, a [Quit] closure
    bound to a weak pointer, which does nothing once the pointer was
    invalidated. *)
Definition loop_fire_timer (w : World) : World :=
  match ui_delayed w with
  | [] => w
  | d :: rest =>
      let w1 := set_ui_delayed rest (set_ui_now (Z.max (ui_now w) (due d)) w) in
      if bound_gen d =? quit_factory_ (job w1) then Quit w1 else w1
  end.

(** Modelled from the spec: the pool runs [PrintJobWorker::Stop] and
    posts the reply to the UI loop. *)
Definition pool_completes (w : World) : World :=
  match pool w with
  | [] => w
  | Pool_WorkerStop _ :: rest =>
      let w1 := set_pool rest w in
      let w2 :=
        with_job (fun j => set_worker_ (option_map worker_Stop (worker_ j)) j)
                 w1 in
      PostTask Task_HoldUntilStopIsCalled w2
  end.

(** Modelled from the spec: entering [MessageLoop::Run] and returning
    from it. *)
Definition MessageLoop_enter (w : World) : World :=
  set_run_stack (false :: run_stack w) w.

Definition MessageLoop_leave (w : World) : World :=
  set_run_stack (tl (run_stack w)) w.

Definition step (a : Action) (w : World) : option World :=
  match a with
  | Call_Initialize owner source page_count =>
      Some (Initialize owner source page_count w)
  | Call_StartPrinting => StartPrinting w
  | Call_Stop => Stop w
  | Call_Cancel => Cancel w
  | Call_DisconnectSource => Some (DisconnectSource w)
  | Call_Observe type details => Observe type details w
  | Enter_FlushJob timeout =>
      Some (MessageLoop_enter (PostDelayedQuit timeout w))
  | Leave_FlushJob =>
      match run_stack w with
      | true :: _ => Some (MessageLoop_leave w)
      | _ => Some w
      end
  | Loop_RunTask => loop_run_task w
  | Loop_FireTimer => Some (loop_fire_timer w)
  | Pool_Completes => Some (pool_completes w)
  | Worker_Notifies details => Notify details w
  end.

Fixpoint run (l : list Action) (w : World) : option World :=
  match l with
  | [] => Some w
  | a :: rest => w' <- step a w ;; run rest w'
  end.

(** *** The nested loop of [FlushJob] *)

Inductive RunResult : Type :=
| Run_Exited (w : World)
| Run_Crashed
| Run_Busy (w : World).

(** The [Run] entered at nesting [depth] has received its quit. *)
Definition quit_received (depth : nat) (w : World) : bool :=
  (length (run_stack w) =? depth) && hd false (run_stack w).

(** Modelled from the spec: the body of [MessageLoop::Run].  Until the
    quit is received, do what the schedule brings next; a schedule that
    ends before the quit leaves the loop running. *)
Fixpoint Run_loop (depth : nat) (sched : list Action) (w : World) : RunResult :=
  if quit_received depth w then Run_Exited w
  else
    match sched with
    | [] => Run_Busy w
    | a :: rest =>
        match step a w with
        | Some w' => Run_loop depth rest w'
        | None => Run_Crashed
        end
    end.

Definition MessageLoop_Run (sched : list Action) (w : World) : RunResult :=
  let w1 := MessageLoop_enter w in
  match Run_loop (length (run_stack w1)) sched w1 with
  | Run_Exited w2 => Run_Exited (MessageLoop_leave w2)
  | r => r
  end.

Inductive FlushResult : Type :=
| Returned (result : bool) (w : World)
| Crashed
| StillRunning (w : World).

Definition FlushJob (timeout : Z) (sched : list Action) (w : World)
  : FlushResult :=
  let w1 := PostDelayedQuit timeout w in
  match MessageLoop_Run sched w1 with
  | Run_Exited w2 => Returned true w2
  | Run_Crashed => Crashed
  | Run_Busy w2 => StillRunning w2
  end.

(** ** Reachable worlds *)

Inductive reachable : World -> Prop :=
| reachable_new : reachable World_new
| reachable_step a w w' :
    reachable w -> step a w = Some w' -> reachable w'.

(** Callers that start printing only on a coordinator that is neither
    stopping nor stopped. *)
Definition idle_start (a : Action) (w : World) : Prop :=
  match a with
  | Call_StartPrinting =>
      is_stopping_ (job w) = false /\ is_stopped_ (job w) = false
  | _ => True
  end.

Inductive reachable_idle_start : World -> Prop :=
| idle_new : reachable_idle_start World_new
| idle_step a w w' :
    reachable_idle_start w -> idle_start a w -> step a w = Some w' ->
    reachable_idle_start w'.

(** ** Vocabulary of the properties *)

Definition failed_event : JobEventDetails.t :=
  JobEventDetails.mk JobEventDetails.FAILED None None.

Definition job_done_event : JobEventDetails.t :=
  JobEventDetails.mk JobEventDetails.JOB_DONE None None.

(** What [Stop()] leaves untouched, and what it does to the rest. *)
Record Stop_effect (wk : PrintJobWorker) (w w' : World) : Prop := {
  stop_published : published w' = published w;
  stop_queue : ui_queue w' = ui_queue w;
  stop_document : document_ (job w') = None;
  stop_settings : settings_ (job w') = settings_ (job w);
  stop_canceling : is_canceling_ (job w') = is_canceling_ (job w);
  stop_stopped : is_stopped_ (job w') = is_stopped_ (job w);
  stop_pending :
    is_job_pending_ (job w') = is_job_pending_ (job w) && negb (loop_alive wk);
  stop_stopping :
    is_stopping_ (job w') = is_stopping_ (job w) || loop_alive wk;
  stop_registrar :
    registrar_ (job w') = registrar_ (job w) && negb (loop_alive wk);
  stop_pool :
    pool w' = if loop_alive wk then pool w ++ [Pool_WorkerStop true]
              else pool w;
  stop_run_stack :
    run_stack w' = if HasWeakPtrs w then run_stack (Quit w) else run_stack w;
  stop_worker :
    exists wk', worker_ (job w') = Some wk' /\
                (loop_alive wk' = true -> loop_alive wk = true)
}.

Ltac open_world w :=
  destruct w as [[src wkr st doc pend canc stopping stopped qf reg]
                   q dl now rs pl pub na].

Definition is_hold (t : Task) : bool :=
  match t with
  | Task_HoldUntilStopIsCalled => true
  | Task_OnDocumentDone => false
  end.

(** A finalize operation is under way: submitted to the pool, or
    completed with its reply still queued. *)
Definition finalize_in_flight (w : World) : bool :=
  match pool w with [] => false | _ :: _ => true end
  || existsb is_hold (ui_queue w).

(** [is_stopping_] is set only while a finalize is under way, and a
    finalize under way shows in [is_stopping_] or [is_stopped_]. *)
Definition finalize_inv (w : World) : Prop :=
  (is_stopping_ (job w) = true -> finalize_in_flight w = true) /\
  (finalize_in_flight w = true ->
   is_stopping_ (job w) || is_stopped_ (job w) = true).

(** While a job is pending the coordinator is not stopped and no
    finalize is under way. *)
Definition pending_inv (w : World) : Prop :=
  is_job_pending_ (job w) = true ->
  is_stopped_ (job w) = false /\ finalize_in_flight w = false.

(** [finalize_inv] holds whoever the callers are; [pending_inv] depends
    on their discipline and is asked for only when [strict] is set. *)
Definition shutdown_inv (strict : bool) (w : World) : Prop :=
  finalize_inv w /\ (strict = true -> pending_inv w).

(** The step is the loop running the document-done continuation. *)
Definition runs_OnDocumentDone (a : Action) (w : World) : Prop :=
  a = Loop_RunTask /\ exists rest, ui_queue w = Task_OnDocumentDone :: rest.

(** The step is a [JOB_DONE] notification brought in from outside the
    coordinator. *)
Definition brings_JOB_DONE (a : Action) : Prop :=
  exists d, a = Worker_Notifies d /\
            JobEventDetails.type d = JobEventDetails.JOB_DONE.

(** *** Readings of the specification that the code does not satisfy *)

(** The reading of C3 for every coordinator state. *)
Definition Cancel_always_publishes_FAILED : Prop :=
  forall w : World,
  exists w' p,
    Cancel w = Some w' /\
    published w' = published w ++ [p] /\
    JobEventDetails.type (pub_details p) = JobEventDetails.FAILED.

(** The reading of C8 for every change of document, the change to the
    null document included: the cached settings are those copied from
    the new document, so they are determined by it. *)
Definition settings_copied_on_every_change : Prop :=
  exists copy : option PrintedDocument -> PrintSettings,
    (forall d, copy (Some d) = doc_settings d) /\
    (forall (w : World) nd,
       same_document (document_ (job w)) nd = false ->
       settings_ (job (UpdatePrintedDocument nd w)) = copy nd).

(** The reading of C4 for every reachable coordinator: once the
    continuation queued by [DOC_DONE] has run, no job is pending. *)
Definition DOC_DONE_always_ends_pending : Prop :=
  forall (w w' : World) (rest : list Task),
    reachable w ->
    ui_queue w = Task_OnDocumentDone :: rest ->
    step Loop_RunTask w = Some w' ->
    is_job_pending_ (job w') = false.

(** The reading of C9 for every reachable coordinator: [is_stopping_] is
    set exactly while a finalize operation is submitted and its
    continuation has not run. *)
Definition stopping_exactly_while_finalizing : Prop :=
  forall w : World,
    reachable w -> is_stopping_ (job w) = finalize_in_flight w.

(** The reading of C2 for every sequence of operations. *)
Definition pending_stopped_exclusive : Prop :=
  forall w : World,
    reachable w ->
    is_job_pending_ (job w) && is_stopped_ (job w) = false.

(** *** The destructor *)

(** The assertions of [~PrintJob]: the job is finished, or at least
    canceled, and the thread of the worker is gone. *)
Definition destructor_DCHECKs (j : PrintJob) : bool :=
  negb (is_job_pending_ j) && negb (is_canceling_ j)
  && match worker_ j with
     | Some wk => negb (loop_alive wk)
     | None => true
     end.

(** *** What the coordinator's own operations leave alone *)

(** What [Stop()] does to the timers, the weak pointers and the worker
    handle. *)
Record Stop_frame (wk : PrintJobWorker) (w w' : World) : Prop := {
  frame_delayed : ui_delayed w' = ui_delayed w;
  frame_now : ui_now w' = ui_now w;
  frame_next_addr : next_addr w' = next_addr w;
  frame_source : source_ (job w') = source_ (job w);
  frame_gen :
    quit_factory_ (job w')
    = if HasWeakPtrs w then S (quit_factory_ (job w))
      else quit_factory_ (job w);
  frame_worker :
    exists wk', worker_ (job w') = Some wk' /\
                loop_alive wk' = loop_alive wk && negb OS_WIN /\
                cancel_calls wk' = cancel_calls wk /\
                (loop_alive wk = false -> wk' = wk)
}.

(** The footprint shared by [Stop], [StartPrinting], [Cancel], the
    notification handlers and the document-done continuation: whatever
    else they change, they return with [is_canceling_] and [is_stopped_]
    as they found them, touch no timer, allocate nothing, never go back
    to an earlier generation of weak pointers, and either keep the
    document or drop it. *)
Record quiet (w w' : World) : Prop := {
  quiet_canceling : is_canceling_ (job w') = is_canceling_ (job w);
  quiet_stopped : is_stopped_ (job w') = is_stopped_ (job w);
  quiet_delayed : ui_delayed w' = ui_delayed w;
  quiet_next_addr : next_addr w' = next_addr w;
  quiet_gen : quit_factory_ (job w) <= quit_factory_ (job w');
  quiet_document :
    document_ (job w') = None \/ document_ (job w') = document_ (job w)
}.

(** Between two operations the coordinator is not canceling, no timer is
    bound to a generation of weak pointers that does not exist yet, and
    the document lies below the next address to be allocated. *)
Definition housekeeping_inv (w : World) : Prop :=
  is_canceling_ (job w) = false /\
  Forall (fun d => bound_gen d <= quit_factory_ (job w)) (ui_delayed w) /\
  (forall d, document_ (job w) = Some d -> doc_addr d < next_addr w).

(** The document [Initialize] builds. *)
Definition Initialize_document (owner : PrintJobWorkerOwner)
           (source : option nat) (page_count : Z) (w : World)
  : PrintedDocument :=
  mkDocument (next_addr w) (owner_settings owner) source
             (owner_cookie owner) page_count.

(** ** Properties *)

(** *** Accessors *)

(** C10. [cookie()] is 0, the invalid job id, when no document is
    current, and the cookie of the current document otherwise; it is
    defined on every coordinator. *)
Theorem cookie_of_current_document (j : PrintJob) :
  (document_ j = None /\ cookie j = 0%Z) \/
  (exists d, document_ j = Some d /\ cookie j = doc_cookie d).
Proof.
  unfold cookie.
  destruct (document_ j) as [d|] eqn:Hdoc.
  - right. exists d. split; reflexivity.
  - left. split; reflexivity.
Qed.

(** *** Cancel while canceling *)

(** C1. A call of [Cancel()] that finds [is_canceling_] set returns at
    once: the world after the call is the world before it, so nothing is
    published, the worker is not cancelled again and no field of the
    coordinator changes. *)
Theorem Cancel_while_canceling_is_ignored (w : World) :
  is_canceling_ (job w) = true ->
  Cancel w = Some w /\
  (forall w', Cancel w = Some w' ->
     published w' = published w /\
     worker_ (job w') = worker_ (job w) /\
     job w' = job w).
Proof.
  intro Hc.
  assert (E : Cancel w = Some w) by (unfold Cancel; rewrite Hc; reflexivity).
  split; [exact E|].
  intros w' E'. rewrite E in E'. injection E' as <-. repeat split.
Qed.

(** *** UpdatePrintedDocument *)

Lemma UpdatePrintedDocument_document (nd : option PrintedDocument) (w : World) :
  same_document (document_ (job (UpdatePrintedDocument nd w))) nd = true.
Proof.
  unfold UpdatePrintedDocument.
  destruct (same_document (document_ (job w)) nd) eqn:E; [exact E|].
  destruct nd as [d|]; simpl;
    destruct (worker_ (job w)) as [wk|]; try destruct (loop_alive wk);
    simpl; try apply Nat.eqb_refl; reflexivity.
Qed.

(** C7. [UpdatePrintedDocument] with the document that is already
    current changes nothing: no field of the coordinator, and no task for
    the worker.  After any call the argument is the current document, so
    a second call with the same document is such a call. *)
Theorem UpdatePrintedDocument_same_is_noop
        (nd : option PrintedDocument) (w : World) :
  (same_document (document_ (job w)) nd = true ->
   UpdatePrintedDocument nd w = w) /\
  UpdatePrintedDocument nd (UpdatePrintedDocument nd w)
  = UpdatePrintedDocument nd w.
Proof.
  assert (H : forall w0, same_document (document_ (job w0)) nd = true ->
                         UpdatePrintedDocument nd w0 = w0).
  { intros w0 E. unfold UpdatePrintedDocument. rewrite E. reflexivity. }
  split.
  - apply H.
  - apply H, UpdatePrintedDocument_document.
Qed.

(** *** StartPrinting *)

Lemma Notify_ignored (d : JobEventDetails.t) (w : World) :
  JobEventDetails.type d <> JobEventDetails.FAILED ->
  JobEventDetails.type d <> JobEventDetails.DOC_DONE ->
  Notify d w = Some (set_published (published w ++ [mkPub d (job w)]) w).
Proof.
  intros Hf Hd. unfold Notify, Observe, OnNotifyPrintJobEvent.
  destruct (registrar_ _); [|reflexivity].
  destruct (JobEventDetails.type d); try reflexivity; contradiction.
Qed.

(** C5. With a worker attached, [StartPrinting()] changes nothing when
    the worker thread is not alive or a job is pending.  Otherwise the
    start task is posted to the worker, [is_job_pending_] is set, and
    [NEW_DOC] is published last: the coordinator handed out with the
    notification has [is_job_pending_] set already. *)
Theorem StartPrinting_guard_and_order (w : World) (wk : PrintJobWorker) :
  worker_ (job w) = Some wk ->
  (loop_alive wk = false \/ is_job_pending_ (job w) = true ->
   StartPrinting w = Some w) /\
  (loop_alive wk = true -> is_job_pending_ (job w) = false ->
   let start := Worker_StartPrinting (document_ptr (document_ (job w))) in
   let j1 := set_is_job_pending_ true
               (set_worker_ (Some (worker_PostTask start wk)) (job w)) in
   let new_doc := JobEventDetails.mk JobEventDetails.NEW_DOC
                    (document_ptr (document_ (job w))) None in
   exists w',
     StartPrinting w = Some w' /\
     job w' = j1 /\
     is_job_pending_ (job w') = true /\
     published w' = published w ++ [mkPub new_doc j1] /\
     is_job_pending_ (pub_job (mkPub new_doc j1)) = true /\
     ui_queue w' = ui_queue w /\ pool w' = pool w).
Proof.
  intro Hw. split.
  - intros H. unfold StartPrinting. rewrite Hw.
    destruct H as [H|H]; rewrite H; cbn;
      [reflexivity | rewrite orb_true_r; reflexivity].
  - intros Ha Hp start j1 new_doc. unfold StartPrinting.
    rewrite Hw, Ha, Hp. cbn [negb orb].
    rewrite Notify_ignored by (cbn; discriminate).
    eexists. split; [reflexivity|]. repeat split.
Qed.

(** *** Stop *)

Lemma Stop_succeeds (w : World) (wk : PrintJobWorker) :
  worker_ (job w) = Some wk ->
  exists w', Stop w = Some w' /\ Stop_effect wk w w'.
Proof.
  open_world w. cbn [job worker_]. intros ->.
  unfold Stop, ControlledWorkerShutdown, HasWeakPtrs, Quit, MessageLoop_Quit.
  cbn [job ui_delayed quit_factory_ run_stack].
  destruct (existsb _ dl) eqn:Hx; destruct rs as [|r rs];
    destruct wk as [alive tasks n]; destruct alive; destruct OS_WIN;
    destruct doc as [d|];
    (eexists; split; [reflexivity|]);
    (split; cbn; try reflexivity;
     try (rewrite ?andb_true_r, ?andb_false_r, ?orb_true_r, ?orb_false_r;
          reflexivity);
     try (eexists; split; [reflexivity | cbn; auto]);
     try (rewrite Hx; reflexivity)).
Qed.

Lemma Stop_needs_worker (w : World) :
  worker_ (job w) = None -> Stop w = None.
Proof.
  open_world w. cbn [job worker_]. intros ->.
  unfold Stop, HasWeakPtrs, Quit, MessageLoop_Quit.
  cbn [job ui_delayed quit_factory_ run_stack].
  destruct (existsb _ dl); destruct rs; reflexivity.
Qed.

(** *** Notifications the coordinator reacts to *)

Lemma OnNotifyPrintJobEvent_FAILED (e : JobEventDetails.t) (w : World)
      (wk : PrintJobWorker) :
  JobEventDetails.type e = JobEventDetails.FAILED ->
  worker_ (job w) = Some wk ->
  exists w',
    OnNotifyPrintJobEvent e w = Some w' /\
    Stop_effect wk
      (with_job (fun j => set_settings_ (settings_Clear (settings_ j)) j) w) w'.
Proof.
  intros He Hw. unfold OnNotifyPrintJobEvent. rewrite He.
  apply Stop_succeeds. cbn. exact Hw.
Qed.

Lemma Notify_FAILED (w : World) (wk : PrintJobWorker) :
  worker_ (job w) = Some wk ->
  exists w',
    Notify failed_event w = Some w' /\
    published w' = published w ++ [mkPub failed_event (job w)] /\
    ui_queue w' = ui_queue w /\
    is_canceling_ (job w') = is_canceling_ (job w) /\
    is_job_pending_ (job w')
    = is_job_pending_ (job w) && negb (registrar_ (job w) && loop_alive wk) /\
    exists wk', worker_ (job w') = Some wk' /\
                (loop_alive wk' = true -> loop_alive wk = true) /\
                (registrar_ (job w) = false -> loop_alive wk' = loop_alive wk).
Proof.
  intro Hw. unfold Notify, Observe. cbn [job set_published].
  destruct (registrar_ (job w)) eqn:Hr.
  - destruct (@OnNotifyPrintJobEvent_FAILED failed_event
                (set_published
                   (published w ++ [mkPub failed_event (job w)]) w)
                wk eq_refl Hw) as (w' & E & F).
    exists w'. split; [exact E|]. destruct F. cbn in *.
    repeat split; try assumption.
    destruct stop_worker0 as (wk' & Hw' & Ha').
    exists wk'. repeat split; try assumption. discriminate.
  - eexists. split; [reflexivity|]. cbn.
    repeat split; try reflexivity.
    + rewrite andb_true_r. reflexivity.
    + exists wk. repeat split; [exact Hw | auto].
Qed.

(** *** Cancel *)

Lemma Stop_published (w w' : World) :
  Stop w = Some w' -> published w' = published w.
Proof.
  intros E.
  destruct (worker_ (job w)) as [wk|] eqn:Hw;
    [|rewrite (Stop_needs_worker w Hw) in E; discriminate].
  destruct (Stop_succeeds w Hw) as (w1 & E1 & F). rewrite E in E1.
  injection E1 as <-. exact (stop_published F).
Qed.

Lemma OnNotifyPrintJobEvent_published (e : JobEventDetails.t) (w w' : World) :
  OnNotifyPrintJobEvent e w = Some w' -> published w' = published w.
Proof.
  unfold OnNotifyPrintJobEvent.
  destruct (JobEventDetails.type e); intros E;
    try (injection E as <-; reflexivity).
  apply Stop_published in E. exact E.
Qed.

Lemma Observe_published (type : NotificationType) (e : JobEventDetails.t)
      (w w' : World) :
  Observe type e w = Some w' -> published w' = published w.
Proof.
  destruct type; cbn.
  - apply OnNotifyPrintJobEvent_published.
  - intros E; injection E as <-. reflexivity.
Qed.

(** Handling a notification publishes nothing: a notification adds
    itself to what was published and nothing more. *)
Lemma Notify_published (d : JobEventDetails.t) (w w' : World) :
  Notify d w = Some w' ->
  published w' = published w ++ [mkPub d (job w)].
Proof.
  unfold Notify. cbn [job set_published].
  destruct (registrar_ (job w)); intros E.
  - apply Observe_published in E. exact E.
  - injection E as <-. reflexivity.
Qed.

Lemma UpdatePrintedDocument_published (nd : option PrintedDocument)
      (w : World) :
  published (UpdatePrintedDocument nd w) = published w.
Proof.
  unfold UpdatePrintedDocument.
  destruct (same_document _ _); [reflexivity|].
  destruct nd; cbn;
    destruct (worker_ (job w)) as [wk|]; try destruct (loop_alive wk);
    reflexivity.
Qed.

(** What one step adds to the publications, and where a [JOB_DONE] among
    them comes from. *)
Lemma step_publications (a : Action) (w w' : World) :
  step a w = Some w' ->
  exists l,
    published w' = published w ++ l /\
    forall p, In p l ->
      JobEventDetails.type (pub_details p) = JobEventDetails.JOB_DONE ->
      runs_OnDocumentDone a w \/ brings_JOB_DONE a.
Proof.
  assert (nothing : forall x : World,
            published x = published w ->
            exists l, published x = published w ++ l /\
              forall p, In p l ->
                JobEventDetails.type (pub_details p) = JobEventDetails.JOB_DONE ->
                runs_OnDocumentDone a w \/ brings_JOB_DONE a).
  { intros x Hx. exists []. rewrite app_nil_r. split; [exact Hx|].
    intros p []. }
  destruct a; cbn [step]; intros E.
  - injection E as <-. apply nothing. unfold Initialize. cbv zeta.
    cbn [published with_job]. rewrite UpdatePrintedDocument_published.
    reflexivity.
  - unfold StartPrinting in E.
    destruct (worker_ (job w)) as [wk|]; [|discriminate].
    destruct (negb (loop_alive wk) || is_job_pending_ (job w)).
    + injection E as <-. apply nothing. reflexivity.
    + apply Notify_published in E. eexists. split; [exact E|].
      intros p [<-|[]] Hp. discriminate Hp.
  - apply nothing. apply Stop_published. exact E.
  - unfold Cancel in E. destruct (is_canceling_ (job w)).
    + injection E as <-. apply nothing. reflexivity.
    + cbn zeta in E.
      match type of E with
      | bind (Notify ?e ?x) _ = _ =>
          assert (Hx : published x = published w)
            by (cbn; destruct (worker_ (job w)) as [wk|];
                [destruct (loop_alive wk)|]; reflexivity);
          destruct (Notify e x) as [w3|] eqn:E3; [|discriminate]
      end.
      cbn [bind] in E. destruct (Stop w3) as [w4|] eqn:E4; [|discriminate].
      cbn [bind] in E. injection E as <-.
      apply Notify_published in E3. apply Stop_published in E4.
      eexists. split.
      * cbn. rewrite E4, E3, Hx. reflexivity.
      * intros p [<-|[]] Hp. discriminate Hp.
  - injection E as <-. apply nothing. unfold DisconnectSource. cbn.
    destruct (document_ (job w)); reflexivity.
  - apply nothing. eapply Observe_published. exact E.
  - injection E as <-. apply nothing. reflexivity.
  - apply nothing.
    destruct (run_stack w) as [|[] outer]; injection E as <-; reflexivity.
  - unfold loop_run_task in E. destruct (ui_queue w) as [|[] rest] eqn:Hq.
    + injection E as <-. apply nothing. reflexivity.
    + cbn [run_task] in E. unfold OnDocumentDone in E.
      destruct (Stop _) as [w1|] eqn:E1; [|discriminate]. cbn [bind] in E.
      apply Notify_published in E. apply Stop_published in E1.
      eexists. split; [rewrite E, E1; reflexivity|].
      intros p _ _. left. split; [reflexivity|]. exists rest. exact Hq.
    + injection E as <-. apply nothing. reflexivity.
  - injection E as <-. apply nothing.
    unfold loop_fire_timer, Quit, MessageLoop_Quit.
    destruct (ui_delayed w) as [|d rest]; [reflexivity|].
    cbn [job set_ui_delayed set_ui_now run_stack].
    destruct (bound_gen d =? _); [destruct (run_stack w)|]; reflexivity.
  - injection E as <-. apply nothing. unfold pool_completes.
    destruct (pool w) as [|[b] rest]; reflexivity.
  - apply Notify_published in E. eexists. split; [exact E|].
    intros p [<-|[]] Hp. right. exists details. split; [reflexivity|exact Hp].
Qed.

(** C3, as the code has it.  On a coordinator that is not already
    canceling and has a worker attached, [Cancel()] sets [is_canceling_],
    cancels the worker if its thread is alive, and publishes one
    notification, of type [FAILED] and without document: the coordinator
    handed out with it is the one before any [Stop()], canceling, with its
    document and its pending flag as they were.  [Stop()] runs on what the
    notification left and publishes nothing; [Cancel()] queues no
    continuation.  Of all the steps of the coordinator only the
    document-done continuation publishes a [JOB_DONE]. *)
Theorem Cancel_publishes_FAILED_then_stops :
  (forall (w : World) (wk : PrintJobWorker),
     is_canceling_ (job w) = false ->
     worker_ (job w) = Some wk ->
     let w1 := with_job (set_is_canceling_ true) w in
     let w2 := if loop_alive wk
               then with_job (set_worker_ (Some (worker_Cancel wk))) w1
               else w1 in
     let p := mkPub failed_event (job w2) in
     exists w3 w4 w',
       Cancel w = Some w' /\
       Notify failed_event w2 = Some w3 /\
       published w3 = published w ++ [p] /\
       Stop w3 = Some w4 /\
       published w4 = published w3 /\
       w' = with_job (set_is_canceling_ false) w4 /\
       published w' = published w ++ [p] /\
       is_canceling_ (pub_job p) = true /\
       document_ (pub_job p) = document_ (job w) /\
       is_job_pending_ (pub_job p) = is_job_pending_ (job w) /\
       ui_queue w' = ui_queue w /\
       document_ (job w') = None /\
       is_canceling_ (job w') = false /\
       is_job_pending_ (job w')
       = is_job_pending_ (job w) && negb (loop_alive wk)) /\
  (forall (a : Action) (w w' : World),
     step a w = Some w' ->
     exists l,
       published w' = published w ++ l /\
       forall p, In p l ->
         JobEventDetails.type (pub_details p) = JobEventDetails.JOB_DONE ->
         runs_OnDocumentDone a w \/ brings_JOB_DONE a).
Proof.
  split; [|exact step_publications].
  intros w wk Hc Hw w1 w2 p.
  assert (H2 : exists wk2, worker_ (job w2) = Some wk2 /\
                           loop_alive wk2 = loop_alive wk /\
                           published w2 = published w /\
                           ui_queue w2 = ui_queue w /\
                           is_canceling_ (job w2) = true /\
                           document_ (job w2) = document_ (job w) /\
                           is_job_pending_ (job w2) = is_job_pending_ (job w)).
  { subst p w2 w1. destruct (loop_alive wk) eqn:Ha.
    - exists (worker_Cancel wk). cbn. rewrite Ha. repeat split.
    - exists wk. cbn. rewrite Hw, Ha. repeat split. }
  destruct H2 as (wk2 & Hw2 & Ha2 & Hp2 & Hq2 & Hc2 & Hd2 & Hpend2).
  destruct (Notify_FAILED w2 Hw2)
    as (w3 & E3 & Hp3 & Hq3 & Hc3 & Hpend3 & wk3 & Hw3 & Ha3 & Hr3).
  destruct (Stop_succeeds w3 Hw3) as (w4 & E4 & F4). destruct F4.
  exists w3, w4, (with_job (set_is_canceling_ false) w4).
  assert (EC : Cancel w = Some (with_job (set_is_canceling_ false) w4)).
  { unfold Cancel. rewrite Hc. cbn zeta.
    cbn [job with_job worker_ set_is_canceling_]. rewrite Hw.
    fold w1. fold failed_event.
    change (if loop_alive wk
            then with_job (set_worker_ (Some (worker_Cancel wk))) w1
            else w1) with w2.
    rewrite E3. cbn [bind]. rewrite E4. reflexivity. }
  rewrite Hp2 in Hp3. subst p.
  repeat split; cbn; try congruence.
  rewrite stop_pending0, Hpend3, Hpend2, Ha2.
  destruct (is_job_pending_ (job w)); [cbn|reflexivity].
  destruct (loop_alive wk) eqn:Ha.
  + destruct (registrar_ (job w2)); cbn; [reflexivity|].
    rewrite (Hr3 eq_refl), Ha2. reflexivity.
  + rewrite andb_false_r. cbn.
    destruct (loop_alive wk3) eqn:Ha3'; [|reflexivity].
    rewrite Ha2 in Ha3. specialize (Ha3 eq_refl). discriminate.
Qed.

(** *** The document-done continuation *)

Lemma OnDocumentDone_effect (w : World) (wk : PrintJobWorker) :
  worker_ (job w) = Some wk ->
  exists w1 w2,
    Stop w = Some w1 /\
    Stop_effect wk w w1 /\
    OnDocumentDone w = Some w2 /\
    w2 = set_published (published w ++ [mkPub job_done_event (job w1)]) w1.
Proof.
  intro Hw. destruct (Stop_succeeds w Hw) as (w1 & E1 & F1).
  exists w1. eexists. split; [exact E1|]. split; [exact F1|].
  unfold OnDocumentDone. rewrite E1. cbn [bind].
  rewrite (stop_document F1). cbn [document_ptr option_map].
  rewrite Notify_ignored by (cbn; discriminate).
  rewrite (stop_published F1). split; reflexivity.
Qed.

(** C4, as the code has it.  A [DOC_DONE] notification is not handled
    inline: the coordinator only appends the continuation to the queue of
    the UI loop.  Running the continuation performs [Stop()] and then
    publishes one [JOB_DONE], whose document is the null one [Stop()] left
    behind and which hands out the coordinator as [Stop()] left it.  A job
    is pending afterwards exactly if one was pending before and the
    thread of the worker is gone: with the thread alive none is.  Delivered
    by the worker to an idle loop and followed by the loop running its
    next task, the whole sequence publishes [DOC_DONE] and then
    [JOB_DONE] and nothing else. *)
Theorem DOC_DONE_is_deferred_then_JOB_DONE (w : World) (wk : PrintJobWorker) :
  worker_ (job w) = Some wk ->
  (forall doc page,
     Observe NOTIFICATION_PRINT_JOB_EVENT
             (JobEventDetails.mk JobEventDetails.DOC_DONE doc page) w
     = Some (PostTask Task_OnDocumentDone w)) /\
  (exists w1 w2,
     Stop w = Some w1 /\
     run_task Task_OnDocumentDone w = Some w2 /\
     document_ (job w1) = None /\
     published w1 = published w /\
     published w2 = published w ++ [mkPub job_done_event (job w1)] /\
     job w2 = job w1 /\
     is_job_pending_ (job w2)
     = is_job_pending_ (job w) && negb (loop_alive wk) /\
     (loop_alive wk = true -> is_job_pending_ (job w2) = false)) /\
  (loop_alive wk = true -> ui_queue w = [] -> registrar_ (job w) = true ->
   forall doc page,
     let doc_done := JobEventDetails.mk JobEventDetails.DOC_DONE doc page in
     exists w',
       run [Worker_Notifies doc_done; Loop_RunTask] w = Some w' /\
       published w'
       = published w ++ [mkPub doc_done (job w); mkPub job_done_event (job w')] /\
       ui_queue w' = [] /\
       document_ (job w') = None /\
       is_job_pending_ (job w') = false).
Proof.
  intros Hw. split; [|split].
  - reflexivity.
  - destruct (OnDocumentDone_effect w Hw) as (w1 & w2 & E1 & F1 & E2 & ->).
    exists w1. eexists. split; [exact E1|]. split; [exact E2|].
    destruct F1. cbn. repeat split; try assumption.
    intros Ha. rewrite stop_pending0, Ha. apply andb_false_r.
  - intros Ha Hq Hr doc page doc_done. cbn [run step].
    unfold Notify, Observe, OnNotifyPrintJobEvent. cbn [job set_published].
    rewrite Hr. subst doc_done. cbn [JobEventDetails.type bind].
    unfold loop_run_task, PostTask. cbn [ui_queue set_ui_queue set_published].
    rewrite Hq. cbn [app run_task].
    set (wq := set_ui_queue _ _).
    assert (Hwq : worker_ (job wq) = Some wk) by (subst wq; cbn; exact Hw).
    destruct (OnDocumentDone_effect wq Hwq) as (w1 & w2 & E1 & F1 & E2 & ->).
    rewrite E2. cbn [bind]. eexists. split; [reflexivity|].
    destruct F1. subst wq. cbn in *.
    repeat split; try assumption.
    + rewrite <- app_assoc. reflexivity.
    + rewrite stop_pending0, Ha. apply andb_false_r.
Qed.

(** *** Cached settings *)

(** C8, as the code has it.  Replacing the document by a different,
    non-null one copies the settings of the new document; replacing it by
    the null document leaves the cached settings as they are; the
    delivery of a [FAILED] notification clears them. *)
Theorem settings_follow_document_and_failure (w : World) :
  (forall d,
     same_document (document_ (job w)) (Some d) = false ->
     document_ (job (UpdatePrintedDocument (Some d) w)) = Some d /\
     settings_ (job (UpdatePrintedDocument (Some d) w)) = doc_settings d) /\
  settings_ (job (UpdatePrintedDocument None w)) = settings_ (job w) /\
  (forall wk e,
     worker_ (job w) = Some wk ->
     JobEventDetails.type e = JobEventDetails.FAILED ->
     exists w',
       Observe NOTIFICATION_PRINT_JOB_EVENT e w = Some w' /\
       settings_ (job w') = settings_Clear (settings_ (job w))).
Proof.
  split; [|split].
  - intros d E. unfold UpdatePrintedDocument. rewrite E. cbn.
    destruct (worker_ (job w)) as [wk|]; [destruct (loop_alive wk)|];
      split; reflexivity.
  - unfold UpdatePrintedDocument.
    destruct (same_document _ _); [reflexivity|]. cbn.
    destruct (worker_ (job w)) as [wk|]; [destruct (loop_alive wk)|];
      reflexivity.
  - intros wk e Hw He.
    destruct (OnNotifyPrintJobEvent_FAILED e w He Hw) as (w' & E & F).
    exists w'. split; [exact E|]. rewrite (stop_settings F). reflexivity.
Qed.

(** *** Pending and stopped *)

Section Preservation.

Variable strict : bool.

Lemma shutdown_inv_ext (w w' : World) :
  is_job_pending_ (job w') = is_job_pending_ (job w) ->
  is_stopping_ (job w') = is_stopping_ (job w) ->
  is_stopped_ (job w') = is_stopped_ (job w) ->
  pool w' = pool w ->
  ui_queue w' = ui_queue w ->
  shutdown_inv strict w -> shutdown_inv strict w'.
Proof.
  unfold shutdown_inv, finalize_inv, pending_inv, finalize_in_flight.
  intros -> -> -> -> ->. exact (fun H => H).
Qed.

Lemma UpdatePrintedDocument_inv (nd : option PrintedDocument) (w : World) :
  shutdown_inv strict w -> shutdown_inv strict (UpdatePrintedDocument nd w).
Proof.
  apply shutdown_inv_ext; unfold UpdatePrintedDocument;
    destruct (same_document _ _); try reflexivity;
    destruct nd; cbn;
    destruct (worker_ (job w)) as [wk|]; try destruct (loop_alive wk);
    reflexivity.
Qed.

Lemma in_flight_after_submit (w w' : World) :
  pool w' = pool w ++ [Pool_WorkerStop true] -> finalize_in_flight w' = true.
Proof.
  unfold finalize_in_flight. intros ->.
  destruct (pool w); reflexivity.
Qed.

Lemma Stop_inv (w w' : World) :
  Stop w = Some w' -> shutdown_inv strict w -> shutdown_inv strict w'.
Proof.
  intros E I.
  destruct (worker_ (job w)) as [wk|] eqn:Hw;
    [|rewrite (Stop_needs_worker w Hw) in E; discriminate].
  destruct (Stop_succeeds w Hw) as (w1 & E1 & F). rewrite E in E1.
  injection E1 as <-. destruct F.
  destruct (loop_alive wk).
  - pose proof (in_flight_after_submit w w' stop_pool0) as Hf.
    unfold shutdown_inv, finalize_inv, pending_inv.
    rewrite stop_pending0, stop_stopping0, Hf.
    rewrite andb_false_r, orb_true_r.
    repeat split; try reflexivity; discriminate.
  - revert I. apply shutdown_inv_ext; try assumption.
    + rewrite stop_pending0. apply andb_true_r.
    + rewrite stop_stopping0. apply orb_false_r.
Qed.

Lemma PostTask_OnDocumentDone_inv (w : World) :
  shutdown_inv strict w -> shutdown_inv strict (PostTask Task_OnDocumentDone w).
Proof.
  unfold shutdown_inv, finalize_inv, pending_inv, finalize_in_flight, PostTask.
  cbn. rewrite existsb_app. cbn. rewrite !orb_false_r. exact (fun H => H).
Qed.

Lemma OnNotifyPrintJobEvent_inv (e : JobEventDetails.t) (w w' : World) :
  OnNotifyPrintJobEvent e w = Some w' ->
  shutdown_inv strict w -> shutdown_inv strict w'.
Proof.
  unfold OnNotifyPrintJobEvent.
  destruct (JobEventDetails.type e); intros E I;
    try (injection E as <-; try exact I;
         apply PostTask_OnDocumentDone_inv; exact I).
  apply (Stop_inv E). exact I.
Qed.

Lemma Observe_inv (type : NotificationType) (e : JobEventDetails.t)
      (w w' : World) :
  Observe type e w = Some w' ->
  shutdown_inv strict w -> shutdown_inv strict w'.
Proof.
  destruct type; cbn.
  - apply OnNotifyPrintJobEvent_inv.
  - intros E; injection E as <-. exact (fun H => H).
Qed.

Lemma Notify_inv (e : JobEventDetails.t) (w w' : World) :
  Notify e w = Some w' -> shutdown_inv strict w -> shutdown_inv strict w'.
Proof.
  unfold Notify. cbn [job set_published]. intros E I.
  destruct (registrar_ (job w)).
  - eapply Observe_inv; [exact E | exact I].
  - injection E as <-. exact I.
Qed.

(** The one place where the discipline of the callers is needed. *)
Lemma StartPrinting_inv (w w' : World) :
  (strict = true ->
   is_stopping_ (job w) = false /\ is_stopped_ (job w) = false) ->
  StartPrinting w = Some w' ->
  shutdown_inv strict w -> shutdown_inv strict w'.
Proof.
  intros G. unfold StartPrinting.
  destruct (worker_ (job w)) as [wk|]; [|discriminate].
  destruct (negb (loop_alive wk) || is_job_pending_ (job w)).
  - intros E; injection E as <-. exact (fun H => H).
  - intros E I. apply (Notify_inv _ E).
    destruct I as [[I1 I2] _]. split; [split; [exact I1 | exact I2]|].
    intros Hs _. destruct (G Hs) as [Hg Hd].
    change (is_stopped_ (job w) = false /\ finalize_in_flight w = false).
    split; [exact Hd|].
    destruct (finalize_in_flight w); [|reflexivity].
    specialize (I2 eq_refl). rewrite Hg, Hd in I2. discriminate.
Qed.

Lemma Cancel_inv (w w' : World) :
  Cancel w = Some w' -> shutdown_inv strict w -> shutdown_inv strict w'.
Proof.
  unfold Cancel. destruct (is_canceling_ (job w)).
  - intros E; injection E as <-. exact (fun H => H).
  - cbn zeta. intros E I.
    match type of E with
    | bind (Notify ?e ?x) _ = _ =>
        assert (I2 : shutdown_inv strict x);
        [|destruct (Notify e x) as [w3|] eqn:E3; [|discriminate]]
    end.
    { cbn. destruct (worker_ (job w)) as [wk|]; [destruct (loop_alive wk)|];
        exact I. }
    cbn [bind] in E.
    destruct (Stop w3) as [w4|] eqn:E4; [|discriminate].
    cbn [bind] in E. injection E as <-.
    exact (Stop_inv E4 (Notify_inv _ E3 I2)).
Qed.

Lemma OnDocumentDone_inv (w w' : World) :
  OnDocumentDone w = Some w' ->
  shutdown_inv strict w -> shutdown_inv strict w'.
Proof.
  unfold OnDocumentDone. intros E I.
  destruct (Stop w) as [w1|] eqn:E1; [|discriminate]. cbn [bind] in E.
  exact (Notify_inv _ E (Stop_inv E1 I)).
Qed.

Lemma HoldUntilStopIsCalled_inv (w : World) (rest : list Task) :
  ui_queue w = Task_HoldUntilStopIsCalled :: rest ->
  shutdown_inv strict w ->
  shutdown_inv strict (HoldUntilStopIsCalled (set_ui_queue rest w)).
Proof.
  intros Hq [[_ I2] I3].
  assert (Hf : finalize_in_flight w = true).
  { unfold finalize_in_flight. rewrite Hq. cbn. apply orb_true_r. }
  split; [split|].
  - discriminate.
  - intros _. reflexivity.
  - intros Hs Hp. destruct (I3 Hs Hp) as [_ F]. congruence.
Qed.

Lemma loop_run_task_inv (w w' : World) :
  loop_run_task w = Some w' ->
  shutdown_inv strict w -> shutdown_inv strict w'.
Proof.
  unfold loop_run_task. destruct (ui_queue w) as [|t rest] eqn:Hq.
  - intros E; injection E as <-. exact (fun H => H).
  - destruct t; cbn [run_task]; intros E I.
    + apply (OnDocumentDone_inv E).
      unfold shutdown_inv, finalize_inv, pending_inv, finalize_in_flight in *.
      cbn. rewrite Hq in I. exact I.
    + injection E as <-. apply HoldUntilStopIsCalled_inv; assumption.
Qed.

Lemma pool_completes_inv (w : World) :
  shutdown_inv strict w -> shutdown_inv strict (pool_completes w).
Proof.
  unfold pool_completes. destruct (pool w) as [|[b] rest] eqn:Hp;
    [exact (fun H => H)|].
  intros [[_ I2] I3].
  assert (Hf : finalize_in_flight w = true).
  { unfold finalize_in_flight. rewrite Hp. reflexivity. }
  assert (Hf' : finalize_in_flight
                  (PostTask Task_HoldUntilStopIsCalled
                     (with_job
                        (fun j => set_worker_
                                    (option_map worker_Stop (worker_ j)) j)
                        (set_pool rest w))) = true).
  { unfold finalize_in_flight, PostTask. cbn.
    rewrite existsb_app. cbn. rewrite !orb_true_r. reflexivity. }
  unfold shutdown_inv, finalize_inv, pending_inv. rewrite Hf'.
  split; [split|].
  - reflexivity.
  - intros _. exact (I2 Hf).
  - intros Hs Hpend. destruct (I3 Hs Hpend) as [_ F]. congruence.
Qed.

Lemma loop_fire_timer_inv (w : World) :
  shutdown_inv strict w -> shutdown_inv strict (loop_fire_timer w).
Proof.
  unfold loop_fire_timer, Quit, MessageLoop_Quit.
  destruct (ui_delayed w) as [|d rest]; [exact (fun H => H)|].
  cbn [job set_ui_delayed set_ui_now run_stack].
  destruct (bound_gen d =? _); [destruct (run_stack w)|];
    exact (fun H => H).
Qed.

Lemma Initialize_inv owner source page_count (w : World) :
  shutdown_inv strict w ->
  shutdown_inv strict (Initialize owner source page_count w).
Proof.
  intros I. unfold Initialize. cbv zeta.
  match goal with
  | |- shutdown_inv _ (with_job _ (UpdatePrintedDocument ?nd ?x)) =>
      assert (I4 : shutdown_inv strict x)
        by (revert I; apply shutdown_inv_ext; reflexivity);
      generalize (UpdatePrintedDocument_inv nd I4);
      generalize (UpdatePrintedDocument nd x)
  end.
  intros x. apply shutdown_inv_ext; reflexivity.
Qed.

Lemma step_inv (a : Action) (w w' : World) :
  (strict = true -> idle_start a w) ->
  step a w = Some w' ->
  shutdown_inv strict w -> shutdown_inv strict w'.
Proof.
  destruct a; cbn [step idle_start]; intros G E I.
  - injection E as <-. apply Initialize_inv, I.
  - eapply StartPrinting_inv; eassumption.
  - eapply Stop_inv; eassumption.
  - eapply Cancel_inv; eassumption.
  - injection E as <-. revert I. unfold DisconnectSource. cbn.
    destruct (document_ (job w)); exact (fun H => H).
  - eapply Observe_inv; eassumption.
  - injection E as <-. exact I.
  - destruct (run_stack w) as [|[] outer]; injection E as <-; exact I.
  - eapply loop_run_task_inv; eassumption.
  - injection E as <-. apply loop_fire_timer_inv, I.
  - injection E as <-. apply pool_completes_inv, I.
  - eapply Notify_inv; eassumption.
Qed.

Lemma shutdown_inv_new : shutdown_inv strict World_new.
Proof. repeat split; cbn; discriminate. Qed.

End Preservation.

Lemma reachable_finalize_inv (w : World) :
  reachable w -> finalize_inv w.
Proof.
  intro R.
  assert (I : shutdown_inv false w).
  { induction R as [|a w w' _ IH E].
    - apply shutdown_inv_new.
    - apply (@step_inv false a w w'); [discriminate | exact E | exact IH]. }
  exact (proj1 I).
Qed.

(** C2, as the code has it.  In every world reached by sequences of
    operations in which [StartPrinting()] is only called on a coordinator
    that is neither stopping nor stopped, [is_job_pending_] and
    [is_stopped_] are not both set. *)
Theorem pending_excludes_stopped (w : World) :
  reachable_idle_start w ->
  is_job_pending_ (job w) && is_stopped_ (job w) = false.
Proof.
  intro R.
  assert (I : shutdown_inv true w).
  { induction R as [|a w w' _ IH G E].
    - apply shutdown_inv_new.
    - apply (@step_inv true a w w'); [intros _; exact G | exact E | exact IH]. }
  destruct I as [_ I3].
  destruct (is_job_pending_ (job w)) eqn:Hp; [|reflexivity].
  destruct (I3 eq_refl Hp) as [-> _]. reflexivity.
Qed.

(** *** Controlled worker shutdown *)

(** C9, as the code has it.  The finalize step sets [is_stopping_] and
    then submits the worker's [Stop] to the pool: the submission is made
    on a world in which the flag is set, and the operation the pool
    receives has seen it set.  When the pool completes the operation the
    flags are as they were and the reply is queued on the UI loop; the
    reply sets [is_stopped_] and resets [is_stopping_].  In every
    reachable world [is_stopping_] is set only while a finalize is under
    way, and until [is_stopped_] is set a finalize under way has
    [is_stopping_] set. *)
Theorem ControlledWorkerShutdown_finalize (w : World) (wk : PrintJobWorker) :
  worker_ (job w) = Some wk ->
  (exists w0 w1,
     ControlledWorkerShutdown w = Some w1 /\
     is_stopping_ (job w0) = true /\
     pool w0 = pool w /\
     w1 = WorkerPool_PostTaskAndReply Pool_WorkerStop w0 /\
     is_stopping_ (job w1) = true /\
     is_stopped_ (job w1) = is_stopped_ (job w) /\
     pool w1 = pool w ++ [Pool_WorkerStop true]) /\
  (forall b rest, pool w = Pool_WorkerStop b :: rest ->
     let w2 := pool_completes w in
     pool w2 = rest /\
     ui_queue w2 = ui_queue w ++ [Task_HoldUntilStopIsCalled] /\
     is_stopping_ (job w2) = is_stopping_ (job w) /\
     is_stopped_ (job w2) = is_stopped_ (job w) /\
     worker_thread_alive (job w2) = false) /\
  (exists w3,
     run_task Task_HoldUntilStopIsCalled w = Some w3 /\
     is_stopped_ (job w3) = true /\
     is_stopping_ (job w3) = false /\
     is_job_pending_ (job w3) = is_job_pending_ (job w)) /\
  (forall r : World,
     reachable r ->
     (is_stopping_ (job r) = true -> finalize_in_flight r = true) /\
     (finalize_in_flight r = true -> is_stopped_ (job r) = false ->
      is_stopping_ (job r) = true)).
Proof.
  intro Hw. split; [|split; [|split]].
  - unfold ControlledWorkerShutdown. rewrite Hw.
    destruct OS_WIN; cbn [bind].
    + exists (with_job (set_is_stopping_ true)
                       (with_job (set_worker_ (Some (worker_Stop wk))) w)).
      eexists. repeat split.
    + exists (with_job (set_is_stopping_ true) w).
      eexists. repeat split.
  - intros b rest Hp w2. subst w2. unfold pool_completes. rewrite Hp.
    unfold worker_thread_alive. cbn. rewrite Hw. cbn. repeat split.
  - eexists. split; [reflexivity|]. repeat split.
  - intros r R. destruct (reachable_finalize_inv R) as [I1 I2].
    split; [exact I1|]. intros Hf Hd. specialize (I2 Hf).
    rewrite Hd, orb_false_r in I2. exact I2.
Qed.

(** *** FlushJob *)

Lemma Stop_quits_nested_loop (w w' : World) (b : bool) (outer : list bool) :
  Stop w = Some w' ->
  HasWeakPtrs w = true ->
  run_stack w = b :: outer ->
  run_stack w' = true :: outer.
Proof.
  intros E H Hs.
  destruct (worker_ (job w)) as [wk|] eqn:Hw;
    [|rewrite (Stop_needs_worker w Hw) in E; discriminate].
  destruct (Stop_succeeds w Hw) as (w1 & E1 & F). rewrite E in E1.
  injection E1 as <-.
  rewrite (stop_run_stack F), H. unfold Quit, MessageLoop_Quit.
  rewrite Hs. reflexivity.
Qed.

Lemma existsb_insert_delayed (f : DelayedQuit -> bool) (d : DelayedQuit)
      (l : list DelayedQuit) :
  existsb f (insert_delayed d l) = f d || existsb f l.
Proof.
  induction l as [|x rest IH]; cbn.
  - reflexivity.
  - destruct (due d <? due x)%Z; cbn.
    + reflexivity.
    + rewrite IH. destruct (f d), (f x); reflexivity.
Qed.

Lemma HasWeakPtrs_after_post (timeout : Z) (w : World) :
  HasWeakPtrs (PostDelayedQuit timeout w) = true.
Proof.
  unfold HasWeakPtrs, PostDelayedQuit. cbn.
  rewrite existsb_insert_delayed. cbn. rewrite Nat.eqb_refl. reflexivity.
Qed.

Lemma Run_loop_quit (depth : nat) (sched : list Action) (w : World) :
  quit_received depth w = true -> Run_loop depth sched w = Run_Exited w.
Proof. intro H. destruct sched; cbn; rewrite H; reflexivity. Qed.

(** With a live [Quit] closure among the timers, letting the timers fire
    ends the loop, and the coordinator is as it was. *)
Lemma timers_end_the_loop (outer : list bool) (dl : list DelayedQuit) :
  forall w : World,
    ui_delayed w = dl ->
    run_stack w = false :: outer ->
    HasWeakPtrs w = true ->
    exists w',
      Run_loop (S (length outer)) (repeat Loop_FireTimer (length dl)) w
      = Run_Exited w' /\
      job w' = job w /\
      run_stack w' = true :: outer.
Proof.
  induction dl as [|d rest IH]; intros w Hd Hs Hp.
  - unfold HasWeakPtrs in Hp. rewrite Hd in Hp. discriminate.
  - cbn [length repeat Run_loop]. unfold quit_received. rewrite Hs.
    rewrite andb_false_r. cbn [step].
    unfold loop_fire_timer. rewrite Hd.
    cbn [job set_ui_delayed set_ui_now].
    destruct (bound_gen d =? quit_factory_ (job w)) eqn:Hg.
    + rewrite Run_loop_quit.
      * eexists. split; [reflexivity|]. unfold Quit, MessageLoop_Quit.
        cbn. rewrite Hs. split; reflexivity.
      * unfold quit_received, Quit, MessageLoop_Quit. cbn. rewrite Hs.
        cbn. rewrite Nat.eqb_refl. reflexivity.
    + set (w1 := set_ui_delayed rest
                   (set_ui_now (Z.max (ui_now w) (due d)) w)).
      assert (Hp1 : HasWeakPtrs w1 = true).
      { unfold HasWeakPtrs in *. rewrite Hd in Hp. cbn in *.
        rewrite Hg in Hp. exact Hp. }
      destruct (IH w1 eq_refl Hs Hp1) as (w' & E & Hj & Hs').
      exists w'. split; [exact E|]. split; [exact Hj | exact Hs'].
Qed.

(** C6. [FlushJob] never returns anything but [true].  It does return:
    from every world the loop ends when the timers have fired, and then
    the coordinator is exactly as it was, a pending job still pending.
    It returns [true] as well when the job finishes inside the loop,
    where [Stop()] quits the loop before the timeout. *)
Theorem FlushJob_reports_success (timeout : Z) (w : World) :
  (forall sched result w',
     FlushJob timeout sched w = Returned result w' -> result = true) /\
  (exists sched w',
     FlushJob timeout sched w = Returned true w' /\
     job w' = job w /\
     run_stack w' = run_stack w) /\
  (forall wk rest,
     worker_ (job w) = Some wk ->
     loop_alive wk = true ->
     ui_queue w = Task_OnDocumentDone :: rest ->
     exists w',
       FlushJob timeout [Loop_RunTask] w = Returned true w' /\
       is_job_pending_ (job w') = false /\
       is_stopping_ (job w') = true /\
       run_stack w' = run_stack w).
Proof.
  split; [|split].
  - intros sched result w'. unfold FlushJob.
    destruct (MessageLoop_Run _ _); intros E; try discriminate.
    injection E as <- _. reflexivity.
  - set (w1 := MessageLoop_enter (PostDelayedQuit timeout w)).
    destruct (@timers_end_the_loop (run_stack w) (ui_delayed w1) w1
                eq_refl eq_refl (HasWeakPtrs_after_post timeout w))
      as (w2 & E & Hj & Hs).
    exists (repeat Loop_FireTimer (length (ui_delayed w1))).
    exists (MessageLoop_leave w2).
    unfold FlushJob, MessageLoop_Run. fold w1.
    change (length (run_stack w1)) with (S (length (run_stack w))).
    rewrite E. split; [reflexivity|]. cbn. rewrite Hj, Hs. split; reflexivity.
  - intros wk rest Hw Ha Hq.
    unfold FlushJob, MessageLoop_Run.
    set (w1 := MessageLoop_enter (PostDelayedQuit timeout w)).
    cbn [Run_loop]. unfold quit_received at 1.
    change (run_stack w1) with (false :: run_stack w).
    cbn [hd]. rewrite andb_false_r. cbn [step].
    unfold loop_run_task.
    change (ui_queue w1) with (ui_queue w). rewrite Hq. cbn [run_task].
    set (wq := set_ui_queue rest w1).
    assert (Hwq : worker_ (job wq) = Some wk) by exact Hw.
    destruct (OnDocumentDone_effect wq Hwq) as (w2 & w3 & E2 & F2 & E3 & ->).
    rewrite E3.
    assert (Hs : run_stack w2 = true :: run_stack w).
    { apply (@Stop_quits_nested_loop wq w2 false (run_stack w) E2);
        [|reflexivity].
      exact (HasWeakPtrs_after_post timeout w). }
    unfold quit_received. cbn [run_stack set_published]. rewrite Hs.
    cbn [length hd]. rewrite Nat.eqb_refl. cbn [andb].
    eexists. split; [reflexivity|]. destruct F2. cbn.
    rewrite stop_pending0, stop_stopping0, Ha, Hs.
    rewrite andb_false_r, orb_true_r. repeat split.
Qed.

(** *** Traces *)

Lemma run_reachable (l : list Action) :
  forall w w', reachable w -> run l w = Some w' -> reachable w'.
Proof.
  induction l as [|a rest IH]; cbn [run]; intros w w' R E.
  - injection E as <-. exact R.
  - destruct (step a w) as [w1|] eqn:E1; [|discriminate]. cbn [bind] in E.
    exact (IH w1 w' (reachable_step a R E1) E).
Qed.

Lemma Run_loop_reachable (depth : nat) (sched : list Action) :
  forall w w',
    reachable w -> Run_loop depth sched w = Run_Exited w' ->
    reachable w' /\ quit_received depth w' = true.
Proof.
  induction sched as [|a rest IH]; cbn [Run_loop]; intros w w' R.
  - destruct (quit_received depth w) eqn:Hq; [|discriminate].
    intros E. injection E as <-. split; assumption.
  - destruct (quit_received depth w) eqn:Hq.
    + intros E. injection E as <-. split; assumption.
    + destruct (step a w) as [w1|] eqn:E1; [|discriminate].
      apply IH. exact (reachable_step a R E1).
Qed.

(** Every world [FlushJob] returns in is reached by the steps of the
    loop between entering and leaving it. *)
Lemma FlushJob_reachable (timeout : Z) (sched : list Action) (w w' : World)
      (result : bool) :
  reachable w -> FlushJob timeout sched w = Returned result w' -> reachable w'.
Proof.
  intros R. unfold FlushJob, MessageLoop_Run.
  set (w1 := MessageLoop_enter (PostDelayedQuit timeout w)).
  assert (R1 : reachable w1)
    by exact (reachable_step (Enter_FlushJob timeout) R eq_refl).
  destruct (Run_loop (length (run_stack w1)) sched w1) as [w2| |w2] eqn:E;
    try discriminate.
  intros E'. injection E' as _ <-.
  destruct (Run_loop_reachable _ _ R1 E) as [R2 Hq].
  apply (reachable_step Leave_FlushJob R2). cbn [step].
  unfold quit_received in Hq. apply andb_prop in Hq. destruct Hq as [_ Hq].
  destruct (run_stack w2) as [|[] outer]; try discriminate. reflexivity.
Qed.

(** ** Further properties of the code *)

(** *** Footprints *)

Lemma Stop_frames (w : World) (wk : PrintJobWorker) :
  worker_ (job w) = Some wk ->
  exists w', Stop w = Some w' /\ Stop_frame wk w w'.
Proof.
  open_world w. cbn [job worker_]. intros ->.
  unfold Stop, ControlledWorkerShutdown, HasWeakPtrs, Quit, MessageLoop_Quit.
  cbn [job ui_delayed quit_factory_ run_stack].
  destruct (existsb _ dl) eqn:Hx; destruct rs as [|r rs];
    destruct wk as [alive tasks n]; destruct alive; destruct OS_WIN eqn:Hos;
    destruct doc as [d|];
    (eexists; split; [reflexivity|]);
    (split; cbn; try reflexivity;
     try (rewrite Hx; reflexivity);
     try (eexists; repeat split; cbn; rewrite ?Hos;
          first [reflexivity | discriminate])).
Qed.

Ltac quiet_by_computation :=
  split; cbn;
  first [reflexivity | apply Nat.le_refl | right; reflexivity | left; reflexivity].

Lemma quiet_refl (w : World) : quiet w w.
Proof. quiet_by_computation. Qed.

Lemma quiet_trans (w1 w2 w3 : World) :
  quiet w1 w2 -> quiet w2 w3 -> quiet w1 w3.
Proof.
  intros [c1 s1 d1 n1 g1 o1] [c2 s2 d2 n2 g2 o2]. split.
  - congruence.
  - congruence.
  - congruence.
  - congruence.
  - exact (Nat.le_trans _ _ _ g1 g2).
  - destruct o2 as [o2|o2]; [left; exact o2|].
    destruct o1 as [o1|o1]; [left|right]; congruence.
Qed.

(** [Stop()] either fails for want of a worker or has both footprints. *)
Lemma Stop_cases (w w' : World) :
  Stop w = Some w' ->
  exists wk,
    worker_ (job w) = Some wk /\ Stop_effect wk w w' /\ Stop_frame wk w w'.
Proof.
  intros E.
  destruct (worker_ (job w)) as [wk|] eqn:Hw;
    [|rewrite (Stop_needs_worker w Hw) in E; discriminate].
  destruct (Stop_succeeds w Hw) as (w1 & E1 & F1).
  destruct (Stop_frames w Hw) as (w2 & E2 & F2).
  rewrite E in E1, E2. injection E1 as <-. injection E2 as <-.
  exists wk. split; [reflexivity|]. split; assumption.
Qed.

Lemma Stop_quiet (w w' : World) : Stop w = Some w' -> quiet w w'.
Proof.
  intros E. apply Stop_cases in E. destruct E as (wk & _ & F1 & F2).
  destruct F1, F2. split; try assumption.
  - rewrite frame_gen0. destruct (HasWeakPtrs w); auto.
  - left. assumption.
Qed.

Lemma OnNotifyPrintJobEvent_quiet (e : JobEventDetails.t) (w w' : World) :
  OnNotifyPrintJobEvent e w = Some w' -> quiet w w'.
Proof.
  unfold OnNotifyPrintJobEvent.
  destruct (JobEventDetails.type e); intros E;
    try (injection E as <-; quiet_by_computation).
  apply Stop_quiet in E. refine (quiet_trans _ E). quiet_by_computation.
Qed.

Lemma Observe_quiet (type : NotificationType) (e : JobEventDetails.t)
      (w w' : World) :
  Observe type e w = Some w' -> quiet w w'.
Proof.
  destruct type; cbn.
  - apply OnNotifyPrintJobEvent_quiet.
  - intros E; injection E as <-. apply quiet_refl.
Qed.

Lemma Notify_quiet (e : JobEventDetails.t) (w w' : World) :
  Notify e w = Some w' -> quiet w w'.
Proof.
  unfold Notify. cbn [job set_published]. intros E.
  assert (Q : quiet w (set_published (published w ++ [mkPub e (job w)]) w))
    by quiet_by_computation.
  destruct (registrar_ (job w)).
  - apply Observe_quiet in E. exact (quiet_trans Q E).
  - injection E as <-. exact Q.
Qed.

Lemma StartPrinting_quiet (w w' : World) :
  StartPrinting w = Some w' -> quiet w w'.
Proof.
  unfold StartPrinting.
  destruct (worker_ (job w)) as [wk|]; [|discriminate].
  destruct (negb (loop_alive wk) || is_job_pending_ (job w)).
  - intros E; injection E as <-. apply quiet_refl.
  - intros E. apply Notify_quiet in E. refine (quiet_trans _ E).
    quiet_by_computation.
Qed.

Lemma OnDocumentDone_quiet (w w' : World) :
  OnDocumentDone w = Some w' -> quiet w w'.
Proof.
  unfold OnDocumentDone. intros E.
  destruct (Stop w) as [w1|] eqn:E1; [|discriminate]. cbn [bind] in E.
  apply Stop_quiet in E1. apply Notify_quiet in E.
  exact (quiet_trans E1 E).
Qed.

Lemma Cancel_quiet (w w' : World) : Cancel w = Some w' -> quiet w w'.
Proof.
  unfold Cancel. destruct (is_canceling_ (job w)) eqn:Hc.
  - intros E; injection E as <-. apply quiet_refl.
  - cbn zeta. intros E.
    match type of E with
    | bind (Notify ?e ?x) _ = _ =>
        assert (Q2 : is_stopped_ (job x) = is_stopped_ (job w) /\
                     ui_delayed x = ui_delayed w /\
                     next_addr x = next_addr w /\
                     quit_factory_ (job x) = quit_factory_ (job w) /\
                     document_ (job x) = document_ (job w));
        [|destruct (Notify e x) as [w3|] eqn:E3; [|discriminate]]
    end.
    { cbn. destruct (worker_ (job w)) as [wk|]; [destruct (loop_alive wk)|];
        repeat split. }
    cbn [bind] in E.
    destruct (Stop w3) as [w4|] eqn:E4; [|discriminate].
    cbn [bind] in E. injection E as <-.
    apply Notify_quiet in E3. apply Stop_quiet in E4.
    destruct (quiet_trans E3 E4) as [_ s4 d4 n4 g4 o4].
    destruct Q2 as (s2 & d2 & n2 & g2 & o2).
    split; cbn.
    + symmetry. exact Hc.
    + congruence.
    + congruence.
    + congruence.
    + rewrite <- g2. exact g4.
    + destruct o4 as [o4|o4]; [left; exact o4 | right; congruence].
Qed.

Lemma quiet_housekeeping (w w' : World) :
  quiet w w' -> housekeeping_inv w -> housekeeping_inv w'.
Proof.
  intros [c s d n g o] (Hc & Hg & Ha). split; [|split].
  - congruence.
  - rewrite d. revert Hg. apply Forall_impl. intros x Hx.
    exact (Nat.le_trans _ _ _ Hx g).
  - intros doc Hd. rewrite n. apply Ha.
    destruct o as [o|o]; congruence.
Qed.

Lemma Forall_insert_delayed (P : DelayedQuit -> Prop) (d : DelayedQuit)
      (l : list DelayedQuit) :
  P d -> Forall P l -> Forall P (insert_delayed d l).
Proof.
  intros Hd. induction 1 as [|x rest Hx Hrest IH]; cbn.
  - constructor; [exact Hd | constructor].
  - destruct (due d <? due x)%Z.
    + constructor; [exact Hd|]. constructor; assumption.
    + constructor; assumption.
Qed.

Lemma UpdatePrintedDocument_document_ (nd : option PrintedDocument)
      (w : World) :
  document_ (job (UpdatePrintedDocument nd w))
  = if same_document (document_ (job w)) nd then document_ (job w) else nd.
Proof.
  unfold UpdatePrintedDocument.
  destruct (same_document _ _); [reflexivity|].
  destruct nd; cbn;
    destruct (worker_ (job w)) as [wk|]; try destruct (loop_alive wk);
    reflexivity.
Qed.

Lemma UpdatePrintedDocument_housekeeping (nd : option PrintedDocument)
      (w : World) :
  is_canceling_ (job (UpdatePrintedDocument nd w)) = is_canceling_ (job w) /\
  ui_delayed (UpdatePrintedDocument nd w) = ui_delayed w /\
  next_addr (UpdatePrintedDocument nd w) = next_addr w /\
  quit_factory_ (job (UpdatePrintedDocument nd w)) = quit_factory_ (job w).
Proof.
  unfold UpdatePrintedDocument.
  destruct (same_document _ _); [repeat split|].
  destruct nd; cbn;
    destruct (worker_ (job w)) as [wk|]; try destruct (loop_alive wk);
    repeat split.
Qed.

Lemma Initialize_housekeeping owner source page_count (w : World) :
  housekeeping_inv w ->
  housekeeping_inv (Initialize owner source page_count w).
Proof.
  intros (Hc & Hg & Ha). unfold Initialize. cbv zeta.
  match goal with
  | |- housekeeping_inv (with_job _ (UpdatePrintedDocument ?nd ?x)) =>
      pose proof (UpdatePrintedDocument_housekeeping nd x) as (c & d & n & g);
      pose proof (UpdatePrintedDocument_document_ nd x) as Hdoc;
      revert c d n g Hdoc; generalize (UpdatePrintedDocument nd x)
  end.
  intros u c d n g Hdoc. cbn in c, d, n, g, Hdoc.
  split; [|split]; cbn.
  - congruence.
  - rewrite d, g. exact Hg.
  - intros doc Hd. rewrite n. rewrite Hd in Hdoc.
    destruct (same_document _ _).
    + apply Nat.lt_lt_succ_r, Ha. congruence.
    + injection Hdoc as ->. cbn. apply Nat.lt_succ_diag_r.
Qed.

Lemma step_housekeeping (a : Action) (w w' : World) :
  step a w = Some w' -> housekeeping_inv w -> housekeeping_inv w'.
Proof.
  destruct a; cbn [step]; intros E I.
  - injection E as <-. apply Initialize_housekeeping, I.
  - apply StartPrinting_quiet in E. exact (quiet_housekeeping E I).
  - apply Stop_quiet in E. exact (quiet_housekeeping E I).
  - apply Cancel_quiet in E. exact (quiet_housekeeping E I).
  - injection E as <-. destruct I as (Hc & Hg & Ha).
    unfold DisconnectSource. cbn.
    destruct (document_ (job w)) as [d|] eqn:Hd; split; try split; cbn;
      try assumption.
    + intros doc Hdoc. injection Hdoc as <-. cbn. apply Ha. reflexivity.
    + intros doc Hdoc. rewrite Hd in Hdoc. discriminate.
  - apply Observe_quiet in E. exact (quiet_housekeeping E I).
  - injection E as <-. destruct I as (Hc & Hg & Ha).
    split; [|split]; cbn; try assumption.
    apply Forall_insert_delayed; [apply Nat.le_refl | exact Hg].
  - destruct (run_stack w) as [|[] outer]; injection E as <-; exact I.
  - unfold loop_run_task in E. destruct (ui_queue w) as [|[] rest].
    + injection E as <-. exact I.
    + cbn [run_task] in E. apply OnDocumentDone_quiet in E.
      exact (quiet_housekeeping E I).
    + injection E as <-. exact I.
  - injection E as <-. destruct I as (Hc & Hg & Ha).
    unfold loop_fire_timer, Quit, MessageLoop_Quit.
    destruct (ui_delayed w) as [|d rest] eqn:Hd;
      [rewrite <- Hd in Hg; repeat split; assumption|].
    cbn [job set_ui_delayed set_ui_now run_stack].
    apply Forall_inv_tail in Hg.
    destruct (bound_gen d =? _); [destruct (run_stack w)|];
      (split; [|split]); cbn; assumption.
  - injection E as <-. unfold pool_completes.
    destruct (pool w) as [|[] rest]; exact I.
  - apply Notify_quiet in E. exact (quiet_housekeeping E I).
Qed.

Lemma reachable_housekeeping (w : World) :
  reachable w -> housekeeping_inv w.
Proof.
  induction 1 as [|a w w' _ IH E].
  - split; [|split]; cbn; [reflexivity | constructor | discriminate].
  - exact (step_housekeeping a E IH).
Qed.

(** *** Between two operations *)

(** X1.  [is_canceling_] is set only inside [Cancel()]: every operation
    returns with the flag clear, so no caller, task or timer ever finds a
    coordinator that is canceling. *)
Theorem is_canceling_is_clear_between_operations (w : World) :
  reachable w -> is_canceling_ (job w) = false.
Proof.
  intro R. exact (proj1 (reachable_housekeeping R)).
Qed.

(** *** Initialize *)

Lemma fresh_document_differs (w : World) (d : PrintedDocument) :
  housekeeping_inv w ->
  doc_addr d = next_addr w ->
  same_document (document_ (job w)) (Some d) = false.
Proof.
  intros (_ & _ & Ha) Hd. unfold same_document.
  destruct (document_ (job w)) as [old|]; [|reflexivity].
  apply Nat.eqb_neq. specialize (Ha old eq_refl). rewrite Hd.
  apply Nat.lt_neq. exact Ha.
Qed.

(** X2.  [Initialize] always installs the document it allocates, whatever
    document was current: the job id of the coordinator becomes the one of
    the owner, the cached settings the owner's, the coordinator observes
    its own notifications, and the worker is told about the document if
    its thread is alive.  Flags, queue, pool and publications are left
    alone. *)
Theorem Initialize_installs_its_document
        (owner : PrintJobWorkerOwner) (source : option nat) (page_count : Z)
        (w : World) :
  reachable w ->
  let w' := Initialize owner source page_count w in
  document_ (job w') = Some (Initialize_document owner source page_count w) /\
  cookie (job w') = owner_cookie owner /\
  settings (job w') = owner_settings owner /\
  source_ (job w') = source /\
  registrar_ (job w') = true /\
  next_addr w' = S (next_addr w) /\
  worker_ (job w')
  = option_map
      (fun wk =>
         if loop_alive wk
         then worker_PostTask (Worker_OnDocumentChanged (Some (next_addr w))) wk
         else wk)
      (owner_worker owner) /\
  is_job_pending_ (job w') = is_job_pending_ (job w) /\
  is_stopping_ (job w') = is_stopping_ (job w) /\
  is_stopped_ (job w') = is_stopped_ (job w) /\
  published w' = published w /\
  pool w' = pool w /\
  ui_queue w' = ui_queue w.
Proof.
  intros R w'. subst w'.
  pose proof (@fresh_document_differs w
                (Initialize_document owner source page_count w)
                (reachable_housekeeping R) eq_refl) as Hsame.
  unfold Initialize, UpdatePrintedDocument. cbv zeta.
  cbn [job with_job set_next_addr document_ set_source_ set_worker_
       set_settings_ settings_ source_ next_addr].
  unfold Initialize_document in Hsame. rewrite Hsame.
  unfold cookie, settings.
  destruct (owner_worker owner) as [wk|]; [destruct (loop_alive wk) eqn:Ha|];
    cbn; rewrite ?Ha; repeat split.
Qed.

(** *** Stop *)

(** X3.  With a worker attached [Stop()] always succeeds.  It publishes
    nothing, queues nothing, drops the document (the job id reads 0
    afterwards), keeps the cached settings and never sets [is_stopped_]
    itself.  With the thread of the worker alive it ends the pending job,
    sets [is_stopping_], stops observing and hands one finalize to the
    pool; with the thread gone it leaves all of these as they were. *)
Theorem Stop_drops_the_document_silently (w : World) (wk : PrintJobWorker) :
  worker_ (job w) = Some wk ->
  exists w',
    Stop w = Some w' /\
    document_ (job w') = None /\
    cookie (job w') = 0%Z /\
    published w' = published w /\
    ui_queue w' = ui_queue w /\
    settings (job w') = settings (job w) /\
    is_stopped_ (job w') = is_stopped_ (job w) /\
    (loop_alive wk = true ->
     is_job_pending_ (job w') = false /\
     is_stopping_ (job w') = true /\
     registrar_ (job w') = false /\
     pool w' = pool w ++ [Pool_WorkerStop true]) /\
    (loop_alive wk = false ->
     is_job_pending_ (job w') = is_job_pending_ (job w) /\
     is_stopping_ (job w') = is_stopping_ (job w) /\
     registrar_ (job w') = registrar_ (job w) /\
     pool w' = pool w /\
     worker_ (job w') = Some wk).
Proof.
  intros Hw.
  destruct (Stop_succeeds w Hw) as (w' & E & F).
  destruct (Stop_frames w Hw) as (w2 & E2 & F2).
  rewrite E in E2. injection E2 as <-.
  exists w'. destruct F, F2. unfold cookie, settings.
  rewrite stop_document0.
  repeat split; try assumption.
  - rewrite stop_pending0, H. apply andb_false_r.
  - rewrite stop_stopping0, H. apply orb_true_r.
  - rewrite stop_registrar0, H. apply andb_false_r.
  - rewrite stop_pool0, H. reflexivity.
  - rewrite stop_pending0, H. apply andb_true_r.
  - rewrite stop_stopping0, H. apply orb_false_r.
  - rewrite stop_registrar0, H. apply andb_true_r.
  - rewrite stop_pool0, H. reflexivity.
  - destruct frame_worker0 as (wk' & Hw' & _ & _ & Hd).
    rewrite Hw', (Hd H). reflexivity.
Qed.

(** X4.  Before [Initialize], with no worker attached, [Stop()],
    [StartPrinting()], the document-done continuation, the handling of
    [FAILED] and a [Cancel()] that is not re-entrant all reach
    [worker_->] on a null pointer: [Cancel()] tests [worker_] before it
    cancels the worker, but not before it stops. *)
Theorem operations_need_the_worker (w : World) :
  worker_ (job w) = None ->
  Stop w = None /\
  StartPrinting w = None /\
  OnDocumentDone w = None /\
  (forall e,
     JobEventDetails.type e = JobEventDetails.FAILED ->
     Observe NOTIFICATION_PRINT_JOB_EVENT e w = None) /\
  (is_canceling_ (job w) = false -> Cancel w = None).
Proof.
  intros Hw. repeat split.
  - exact (Stop_needs_worker w Hw).
  - unfold StartPrinting. rewrite Hw. reflexivity.
  - unfold OnDocumentDone. rewrite (Stop_needs_worker w Hw). reflexivity.
  - intros e He. cbn. unfold OnNotifyPrintJobEvent. rewrite He.
    apply Stop_needs_worker. exact Hw.
  - intros Hc. unfold Cancel. rewrite Hc. cbn zeta.
    cbn [job with_job worker_ set_is_canceling_]. rewrite Hw.
    unfold Notify, Observe, OnNotifyPrintJobEvent.
    cbn [job set_published with_job registrar_ set_is_canceling_
         JobEventDetails.type].
    destruct (registrar_ (job w)).
    + rewrite Stop_needs_worker by exact Hw. reflexivity.
    + cbn [bind]. rewrite Stop_needs_worker by exact Hw. reflexivity.
Qed.

(** *** StartPrinting *)

(** X5.  A second [StartPrinting()] changes nothing: whatever the first call
    did, the job is pending or the thread is not alive afterwards, so at
    most one start task reaches the worker and at most one [NEW_DOC] is
    published. *)
Theorem StartPrinting_twice (w w' : World) :
  StartPrinting w = Some w' -> StartPrinting w' = Some w'.
Proof.
  unfold StartPrinting at 1.
  destruct (worker_ (job w)) as [wk|] eqn:Hw; [|discriminate].
  destruct (negb (loop_alive wk) || is_job_pending_ (job w)) eqn:G.
  - intros E. injection E as <-. unfold StartPrinting. rewrite Hw, G.
    reflexivity.
  - rewrite Notify_ignored by (cbn; discriminate).
    intros E. injection E as <-. unfold StartPrinting. cbn.
    rewrite orb_true_r. reflexivity.
Qed.

(** *** is_stopped_ *)

Lemma UpdatePrintedDocument_is_stopped (nd : option PrintedDocument)
      (w : World) :
  is_stopped_ (job (UpdatePrintedDocument nd w)) = is_stopped_ (job w).
Proof.
  unfold UpdatePrintedDocument.
  destruct (same_document _ _); [reflexivity|].
  destruct nd; cbn;
    destruct (worker_ (job w)) as [wk|]; try destruct (loop_alive wk);
    reflexivity.
Qed.

Lemma step_is_stopped (a : Action) (w w' : World) :
  step a w = Some w' ->
  is_stopped_ (job w') = is_stopped_ (job w) \/
  (a = Loop_RunTask /\
   (exists rest, ui_queue w = Task_HoldUntilStopIsCalled :: rest) /\
   is_stopped_ (job w') = true).
Proof.
  destruct a; cbn [step]; intros E.
  - injection E as <-. left. unfold Initialize. cbv zeta.
    cbn [job with_job is_stopped_ set_registrar_].
    rewrite UpdatePrintedDocument_is_stopped. reflexivity.
  - left. apply StartPrinting_quiet in E. exact (quiet_stopped E).
  - left. apply Stop_quiet in E. exact (quiet_stopped E).
  - left. apply Cancel_quiet in E. exact (quiet_stopped E).
  - injection E as <-. left. unfold DisconnectSource. cbn.
    destruct (document_ (job w)); reflexivity.
  - left. apply Observe_quiet in E. exact (quiet_stopped E).
  - injection E as <-. left. reflexivity.
  - left. destruct (run_stack w) as [|[] outer]; injection E as <-; reflexivity.
  - unfold loop_run_task in E. destruct (ui_queue w) as [|[] rest] eqn:Hq.
    + injection E as <-. left. reflexivity.
    + cbn [run_task] in E. apply OnDocumentDone_quiet in E.
      left. exact (quiet_stopped E).
    + injection E as <-. right. split; [reflexivity|].
      split; [exists rest; reflexivity | reflexivity].
  - injection E as <-. left.
    unfold loop_fire_timer, Quit, MessageLoop_Quit.
    destruct (ui_delayed w) as [|d rest]; [reflexivity|].
    cbn [job set_ui_delayed set_ui_now run_stack].
    destruct (bound_gen d =? _); [destruct (run_stack w)|]; reflexivity.
  - injection E as <-. left. unfold pool_completes.
    destruct (pool w) as [|[b] rest]; reflexivity.
  - left. apply Notify_quiet in E. exact (quiet_stopped E).
Qed.

(** X6.  [is_stopped_], once set, is never reset, and nothing sets it but the
    reply of the pool, [HoldUntilStopIsCalled], run by the UI loop:
    [Stop()] and [Cancel()] return before the coordinator is stopped. *)
Theorem is_stopped_is_set_once_by_the_reply (a : Action) (w w' : World) :
  step a w = Some w' ->
  (is_stopped_ (job w) = true -> is_stopped_ (job w') = true) /\
  (is_stopped_ (job w) = false -> is_stopped_ (job w') = true ->
   a = Loop_RunTask /\
   exists rest, ui_queue w = Task_HoldUntilStopIsCalled :: rest).
Proof.
  intros E. apply step_is_stopped in E. destruct E as [H|(Ha & Hq & H)].
  - split; intros H1; rewrite H; [exact H1|].
    rewrite H1. discriminate.
  - split; [intros _; exact H|]. intros _ _. split; assumption.
Qed.

(** *** Timers left behind by FlushJob *)

Lemma old_generations_are_dead (qf : nat) (dl : list DelayedQuit) :
  Forall (fun d => bound_gen d <= qf) dl ->
  existsb (fun d => bound_gen d =? S qf) dl = false.
Proof.
  induction 1 as [|d rest Hd _ IH]; cbn; [reflexivity|].
  rewrite IH, orb_false_r. apply Nat.eqb_neq.
  intros Heq. rewrite Heq in Hd. exact (Nat.nle_succ_diag_l _ Hd).
Qed.

Lemma dead_timers_stay_dead (w : World) :
  HasWeakPtrs w = false ->
  HasWeakPtrs (loop_fire_timer w) = false /\
  run_stack (loop_fire_timer w) = run_stack w.
Proof.
  unfold HasWeakPtrs, loop_fire_timer.
  destruct (ui_delayed w) as [|d rest] eqn:Hd.
  - intros _. rewrite Hd. split; reflexivity.
  - cbn [existsb job set_ui_delayed set_ui_now]. intros H.
    apply orb_false_iff in H. destruct H as [H1 H2].
    rewrite H1. cbn. split; [exact H2 | reflexivity].
Qed.

(** X7.  After [Stop()] no [Quit] closure of an earlier [FlushJob] is live:
    however many timers fire afterwards, none of them quits a message
    loop. *)
Theorem Stop_disarms_the_flush_timers (w w' : World) :
  reachable w ->
  Stop w = Some w' ->
  HasWeakPtrs w' = false /\
  forall n, run_stack (Nat.iter n loop_fire_timer w') = run_stack w'.
Proof.
  intros R E.
  assert (H0 : HasWeakPtrs w' = false).
  { destruct (reachable_housekeeping R) as (_ & Hg & _).
    apply Stop_cases in E. destruct E as (wk & _ & _ & F). destruct F.
    unfold HasWeakPtrs. rewrite frame_delayed0, frame_gen0.
    destruct (HasWeakPtrs w) eqn:Hp.
    - apply old_generations_are_dead. exact Hg.
    - exact Hp. }
  split; [exact H0|].
  intros n.
  assert (H : HasWeakPtrs (Nat.iter n loop_fire_timer w') = false /\
              run_stack (Nat.iter n loop_fire_timer w') = run_stack w').
  { induction n as [|n [IH1 IH2]]; [split; [exact H0 | reflexivity]|].
    rewrite !Nat.iter_succ.
    destruct (dead_timers_stay_dead _ IH1) as [H1 H2].
    split; [exact H1 | rewrite H2; exact IH2]. }
  exact (proj2 H).
Qed.

(** *** DisconnectSource *)


(** *** FlushJob and Stop *)


(** *** Cancel, in full *)

Lemma Stop_both (w : World) (wk : PrintJobWorker) :
  worker_ (job w) = Some wk ->
  exists w', Stop w = Some w' /\ Stop_effect wk w w' /\ Stop_frame wk w w'.
Proof.
  intros Hw.
  destruct (Stop_succeeds w Hw) as (w1 & E1 & F1).
  destruct (Stop_frames w Hw) as (w2 & E2 & F2).
  rewrite E1 in E2. injection E2 as <-.
  exists w1. split; [exact E1|]. split; assumption.
Qed.

Lemma Notify_unregistered (d : JobEventDetails.t) (w : World) :
  registrar_ (job w) = false ->
  Notify d w = Some (set_published (published w ++ [mkPub d (job w)]) w).
Proof.
  intros H. unfold Notify. cbn [job set_published]. rewrite H. reflexivity.
Qed.

Ltac bool_close :=
  repeat match goal with
    | |- context [?b && false] => rewrite (andb_false_r b)
    | |- context [?b || true] => rewrite (orb_true_r b)
    | |- context [?b && true] => rewrite (andb_true_r b)
    | |- context [?b || false] => rewrite (orb_false_r b)
    end;
  cbn; try reflexivity; try assumption.

Lemma Cancel_live_effect (w : World) (wk : PrintJobWorker) :
  is_canceling_ (job w) = false ->
  worker_ (job w) = Some wk ->
  loop_alive wk = true ->
  exists w' wk',
    Cancel w = Some w' /\
    worker_ (job w') = Some wk' /\
    cancel_calls wk' = S (cancel_calls wk) /\
    loop_alive wk' = negb OS_WIN /\
    registrar_ (job w') = false /\
    is_job_pending_ (job w') = false /\
    is_canceling_ (job w') = false /\
    is_stopping_ (job w') = true /\
    is_stopped_ (job w') = is_stopped_ (job w) /\
    ui_queue w' = ui_queue w /\
    pool w' = (if registrar_ (job w) && negb OS_WIN
               then (pool w ++ [Pool_WorkerStop true]) ++ [Pool_WorkerStop true]
               else pool w ++ [Pool_WorkerStop true]).
Proof.
  intros Hc Hw Ha. unfold Cancel. rewrite Hc. cbn zeta.
  cbn [job with_job worker_ set_is_canceling_]. rewrite Hw, Ha.
  unfold Notify, Observe, OnNotifyPrintJobEvent.
  cbn [job set_published with_job registrar_ set_worker_ set_is_canceling_
       JobEventDetails.type].
  destruct (registrar_ (job w)) eqn:Hr.
  - match goal with
    | |- context [bind (Stop ?x) _] =>
        destruct (@Stop_both x (worker_Cancel wk) eq_refl)
          as (w3 & E3 & F3 & G3)
    end.
    rewrite E3. cbn [bind].
    destruct G3 as [_ _ _ _ _ (wk3 & Hw3 & Ha3 & Hn3 & _)].
    destruct (Stop_both w3 Hw3) as (w4 & E4 & F4 & G4).
    rewrite E4. cbn [bind].
    destruct G4 as [_ _ _ _ _ (wk4 & Hw4 & Ha4 & Hn4 & _)].
    destruct F3, F4. cbn in *. rewrite Ha in *. cbn in *.
    exists (with_job (set_is_canceling_ false) w4), wk4.
    split; [reflexivity|]. cbn.
    repeat split; try congruence.
    + rewrite Ha4, Ha3. destruct OS_WIN; reflexivity.
    + rewrite stop_registrar1, stop_registrar0. bool_close.
    + rewrite stop_pending1, stop_pending0. bool_close.
    + rewrite stop_stopping1, stop_stopping0. bool_close.
    + rewrite stop_pool1, stop_pool0, Ha3. destruct OS_WIN; reflexivity.
  - cbn [bind].
    match goal with
    | |- context [bind (Stop ?x) _] =>
        destruct (@Stop_both x (worker_Cancel wk) eq_refl)
          as (w4 & E4 & F4 & G4)
    end.
    rewrite E4. cbn [bind].
    destruct G4 as [_ _ _ _ _ (wk4 & Hw4 & Ha4 & Hn4 & _)].
    destruct F4. cbn in *. rewrite Ha in *. cbn in *.
    exists (with_job (set_is_canceling_ false) w4), wk4.
    split; [reflexivity|]. cbn.
    repeat split; try congruence.
    + rewrite stop_registrar0. bool_close.
    + rewrite stop_pending0. bool_close.
    + rewrite stop_stopping0. bool_close.
Qed.

(** X10.  On a worker whose thread is alive [Cancel()] calls the worker's
    [Cancel] exactly once and leaves the coordinator unregistered, not
    pending and stopping.  Off Windows the thread is still alive when
    [Cancel()] returns, and a coordinator that observed its own [FAILED]
    has handed two finalize operations to the pool, one from the handler
    and one from [Cancel()] itself; on Windows it is one.  Whatever is
    notified afterwards is published but no longer handled: a late
    [DOC_DONE] queues no continuation. *)
Theorem Cancel_on_a_live_worker (w : World) (wk : PrintJobWorker) :
  is_canceling_ (job w) = false ->
  worker_ (job w) = Some wk ->
  loop_alive wk = true ->
  exists w' wk',
    Cancel w = Some w' /\
    worker_ (job w') = Some wk' /\
    cancel_calls wk' = S (cancel_calls wk) /\
    loop_alive wk' = negb OS_WIN /\
    registrar_ (job w') = false /\
    is_job_pending_ (job w') = false /\
    is_stopping_ (job w') = true /\
    is_stopped_ (job w') = is_stopped_ (job w) /\
    pool w' = (if registrar_ (job w) && negb OS_WIN
               then (pool w ++ [Pool_WorkerStop true]) ++ [Pool_WorkerStop true]
               else pool w ++ [Pool_WorkerStop true]) /\
    forall d,
      Notify d w' = Some (set_published (published w' ++ [mkPub d (job w')]) w').
Proof.
  intros Hc Hw Ha.
  destruct (Cancel_live_effect w Hc Hw Ha)
    as (w' & wk' & E & Hw' & Hn & Hl & Hr & Hp & _ & Hs & Hd & _ & Hpool).
  exists w', wk'. repeat split; try assumption.
  intros d. apply Notify_unregistered. exact Hr.
Qed.

(** X11.  With the thread of the worker gone [Cancel()] never touches the
    worker and hands nothing to the pool: it publishes [FAILED], drops
    the document and returns with the worker, the pool and the flags
    [is_job_pending_], [is_stopping_], [is_stopped_] and the registration
    as they were.  The settings are cleared only if the coordinator
    observed its own [FAILED]. *)
Theorem Cancel_with_the_thread_gone (w : World) (wk : PrintJobWorker) :
  is_canceling_ (job w) = false ->
  worker_ (job w) = Some wk ->
  loop_alive wk = false ->
  exists w',
    Cancel w = Some w' /\
    worker_ (job w') = Some wk /\
    pool w' = pool w /\
    is_job_pending_ (job w') = is_job_pending_ (job w) /\
    is_stopping_ (job w') = is_stopping_ (job w) /\
    is_stopped_ (job w') = is_stopped_ (job w) /\
    registrar_ (job w') = registrar_ (job w) /\
    is_canceling_ (job w') = false /\
    document_ (job w') = None /\
    published w'
    = published w ++ [mkPub failed_event (set_is_canceling_ true (job w))] /\
    settings (job w')
    = (if registrar_ (job w) then settings_Clear (settings (job w))
       else settings (job w)).
Proof.
  intros Hc Hw Ha. unfold Cancel. rewrite Hc. cbn zeta.
  cbn [job with_job worker_ set_is_canceling_]. rewrite Hw, Ha.
  unfold Notify, Observe, OnNotifyPrintJobEvent, settings.
  cbn [job set_published with_job registrar_ set_worker_ set_is_canceling_
       JobEventDetails.type].
  fold failed_event.
  destruct (registrar_ (job w)) eqn:Hr.
  - match goal with
    | |- context [bind (Stop ?x) _] =>
        assert (Hx : worker_ (job x) = Some wk) by exact Hw;
        destruct (Stop_both x Hx) as (w3 & E3 & F3 & G3)
    end.
    rewrite E3. cbn [bind].
    destruct G3 as [_ _ _ _ _ (wk3 & Hw3 & _ & _ & Hd3)].
    specialize (Hd3 Ha). subst wk3.
    destruct (Stop_both w3 Hw3) as (w4 & E4 & F4 & G4).
    rewrite E4. cbn [bind].
    destruct G4 as [_ _ _ _ _ (wk4 & Hw4 & _ & _ & Hd4)].
    specialize (Hd4 Ha). subst wk4.
    destruct F3, F4. cbn in *. rewrite Ha in *. cbn in *.
    eexists. split; [reflexivity|]. cbn.
    repeat split; try congruence.
    + rewrite stop_pending1, stop_pending0. bool_close.
    + rewrite stop_stopping1, stop_stopping0. bool_close.
    + rewrite stop_registrar1, stop_registrar0, Hr. reflexivity.
  - cbn [bind].
    match goal with
    | |- context [bind (Stop ?x) _] =>
        assert (Hx : worker_ (job x) = Some wk) by exact Hw;
        destruct (Stop_both x Hx) as (w4 & E4 & F4 & G4)
    end.
    rewrite E4. cbn [bind].
    destruct G4 as [_ _ _ _ _ (wk4 & Hw4 & _ & _ & Hd4)].
    specialize (Hd4 Ha). subst wk4.
    destruct F4. cbn in *. rewrite Ha in *. cbn in *.
    eexists. split; [reflexivity|]. cbn.
    repeat split; try congruence.
    + rewrite stop_pending0. bool_close.
    + rewrite stop_stopping0. bool_close.
    + rewrite stop_registrar0, Hr. reflexivity.
Qed.

(** *** Reaching the stopped state *)

Lemma pool_completes_nonempty (w : World) (b : bool) (rest : list PoolTask) :
  pool w = Pool_WorkerStop b :: rest ->
  pool_completes w
  = PostTask Task_HoldUntilStopIsCalled
      (with_job (fun j => set_worker_ (option_map worker_Stop (worker_ j)) j)
                (set_pool rest w)).
Proof. intros H. unfold pool_completes. rewrite H. reflexivity. Qed.

(** X12.  After [Cancel()] on a live worker with an idle loop, one completion
    of the pool and the reply it posts leave the coordinator stopped, no
    longer stopping, and fit for its destructor: not pending, not
    canceling, the thread of the worker gone. *)
Theorem Cancel_then_reply_reaches_stopped (w : World) (wk : PrintJobWorker) :
  is_canceling_ (job w) = false ->
  worker_ (job w) = Some wk ->
  loop_alive wk = true ->
  ui_queue w = [] ->
  exists w',
    run [Call_Cancel; Pool_Completes; Loop_RunTask] w = Some w' /\
    is_stopped_ (job w') = true /\
    is_stopping_ (job w') = false /\
    is_job_pending_ (job w') = false /\
    document_ (job w') = None /\
    destructor_DCHECKs (job w') = true.
Proof.
  intros Hc Hw Ha Hq.
  destruct (Cancel_live_effect w Hc Hw Ha)
    as (w1 & wk1 & E & Hw1 & _ & _ & _ & Hp & Hcan & _ & _ & Hq1 & Hpool).
  assert (Hd1 : document_ (job w1) = None).
  { apply Cancel_quiet in E as Q.
    unfold Cancel in E. rewrite Hc in E. cbn zeta in E.
    destruct (Notify _ _) as [w3|]; [|discriminate]. cbn [bind] in E.
    destruct (Stop w3) as [w4|] eqn:E4; [|discriminate].
    cbn [bind] in E. injection E as <-.
    apply Stop_cases in E4. destruct E4 as (wk4 & _ & F & _).
    cbn. exact (stop_document F). }
  assert (Hne : exists b rest, pool w1 = Pool_WorkerStop b :: rest).
  { destruct (pool w1) as [|[b] rest] eqn:Hp1; [|exists b, rest; reflexivity].
    destruct (registrar_ (job w) && negb OS_WIN);
      symmetry in Hpool; apply app_eq_nil in Hpool;
      destruct Hpool as [_ Hpool]; discriminate. }
  destruct Hne as (b & rest & Hp1).
  cbn [run step]. rewrite E. cbn [bind].
  rewrite (pool_completes_nonempty w1 Hp1).
  unfold loop_run_task, PostTask.
  cbn [ui_queue set_ui_queue with_job set_pool]. rewrite Hq1, Hq.
  cbn [app run_task bind].
  eexists. split; [reflexivity|].
  unfold destructor_DCHECKs. cbn. rewrite Hp, Hcan, Hw1, Hd1. cbn.
  repeat split.
Qed.

(** X13.  The normal completion, to its end: [DOC_DONE] from the worker, the
    continuation, one completion of the pool and its reply publish
    [DOC_DONE] and [JOB_DONE] and nothing else, and leave the coordinator
    stopped and fit for its destructor. *)
Theorem normal_completion_reaches_stopped (w : World) (wk : PrintJobWorker) :
  is_canceling_ (job w) = false ->
  worker_ (job w) = Some wk ->
  loop_alive wk = true ->
  registrar_ (job w) = true ->
  ui_queue w = [] ->
  forall doc page,
    let doc_done := JobEventDetails.mk JobEventDetails.DOC_DONE doc page in
    exists w',
      run [Worker_Notifies doc_done; Loop_RunTask; Pool_Completes; Loop_RunTask]
          w = Some w' /\
      map (fun p => JobEventDetails.type (pub_details p)) (published w')
      = map (fun p => JobEventDetails.type (pub_details p)) (published w)
        ++ [JobEventDetails.DOC_DONE; JobEventDetails.JOB_DONE] /\
      ui_queue w' = [] /\
      is_stopped_ (job w') = true /\
      is_stopping_ (job w') = false /\
      is_job_pending_ (job w') = false /\
      document_ (job w') = None /\
      destructor_DCHECKs (job w') = true.
Proof.
  intros Hc Hw Ha Hr Hq doc page doc_done. cbn [run step].
  unfold Notify, Observe, OnNotifyPrintJobEvent. cbn [job set_published].
  rewrite Hr. subst doc_done. cbn [JobEventDetails.type bind].
  unfold loop_run_task at 1. unfold PostTask at 1.
  cbn [ui_queue set_ui_queue set_published].
  rewrite Hq. cbn [app run_task].
  set (wq := set_ui_queue _ _).
  assert (Hwq : worker_ (job wq) = Some wk) by (subst wq; cbn; exact Hw).
  destruct (OnDocumentDone_effect wq Hwq) as (w1 & w2 & E1 & F1 & E2 & ->).
  rewrite E2. cbn [bind].
  destruct (Stop_frames wq Hwq) as (w1' & E1' & G1).
  rewrite E1 in E1'. injection E1' as <-.
  destruct G1 as [_ _ _ _ _ (wk1 & Hw1 & _ & _ & _)].
  destruct F1. subst wq. cbn in *. rewrite Ha in *.
  assert (Hne : exists b rest, pool w1 = Pool_WorkerStop b :: rest).
  { destruct (pool w1) as [|[b] rest] eqn:Hp1; [|exists b, rest; reflexivity].
    symmetry in stop_pool0. apply app_eq_nil in stop_pool0.
    destruct stop_pool0 as [_ H]. discriminate. }
  destruct Hne as (b & rest & Hp1).
  match goal with
  | |- context [pool_completes ?x] =>
      rewrite (@pool_completes_nonempty x b rest Hp1)
  end.
  cbn [bind]. unfold loop_run_task, PostTask.
  cbn [ui_queue set_ui_queue with_job set_pool set_published].
  rewrite stop_queue0. cbn [app run_task bind].
  eexists. split; [reflexivity|].
  unfold destructor_DCHECKs. cbn.
  rewrite stop_pending0, stop_canceling0, Hc, Hw1, stop_document0.
  rewrite !map_app. cbn.
  rewrite andb_false_r, <- app_assoc. cbn. repeat split.
Qed.

End Coordinator.

Arguments Call_StartPrinting {PrintSettings}.
Arguments Call_Stop {PrintSettings}.
Arguments Call_Cancel {PrintSettings}.
Arguments Call_DisconnectSource {PrintSettings}.
Arguments Call_Observe {PrintSettings}.
Arguments Enter_FlushJob {PrintSettings}.
Arguments Leave_FlushJob {PrintSettings}.
Arguments Loop_RunTask {PrintSettings}.
Arguments Loop_FireTimer {PrintSettings}.
Arguments Pool_Completes {PrintSettings}.
Arguments Worker_Notifies {PrintSettings}.
Arguments Crashed {PrintSettings}.
Arguments Run_Crashed {PrintSettings}.

(** * A concrete coordinator

    Settings reduced to a number, cleared to 0, and a worker whose thread
    is running when it is handed over. *)

Definition ex_Clear (s : nat) : nat := 0.

Definition ex_worker : PrintJobWorker := mkWorker true [] 0.

Definition ex_owner (s : nat) : PrintJobWorkerOwner nat :=
  mkOwner (Some ex_worker) s 42%Z.

(** The world after a trace on a platform other than Windows; the fresh
    world stands in for a trace that fails. *)
Definition ex_after (l : list (Action nat)) : World nat :=
  match run ex_Clear false l (World_new 0) with
  | Some w => w
  | None => World_new 0
  end.

Definition ex_initialized (s : nat) : World nat :=
  ex_after [Call_Initialize (ex_owner s) (Some 1) 3%Z].

Definition ex_started : World nat :=
  ex_after [Call_Initialize (ex_owner 7) (Some 1) 3%Z; Call_StartPrinting].

(** A coordinator in the middle of [Cancel()]. *)
Definition ex_canceling : World nat :=
  with_job (set_is_canceling_ true) ex_started.

(** The worker reported [DOC_DONE] and the continuation is queued. *)
Definition ex_document_done : World nat :=
  ex_after [Call_Initialize (ex_owner 7) (Some 1) 3%Z; Call_StartPrinting;
            Worker_Notifies
              (JobEventDetails.mk JobEventDetails.DOC_DONE (Some 0) None)].

(** Start, stop, and start again before the pool has finished the worker. *)
Definition ex_restart_trace : list (Action nat) :=
  [Call_Initialize (ex_owner 7) (Some 1) 3%Z;
   Call_StartPrinting;
   Call_Stop;
   Call_StartPrinting;
   Pool_Completes;
   Loop_RunTask].

Example ex_started_flags :
  (is_job_pending_ (job ex_started), is_stopping_ (job ex_started),
   is_stopped_ (job ex_started), cookie (job ex_started))
  = (true, false, false, 42%Z).
Proof. reflexivity. Qed.

Example ex_restart_on_windows :
  option_map (fun w => (is_job_pending_ (job w), is_stopped_ (job w)))
             (run ex_Clear true ex_restart_trace (World_new 0))
  = Some (false, true).
Proof. reflexivity. Qed.

Example ex_cancel_before_initialize :
  Cancel ex_Clear false (World_new 0) = None.
Proof. reflexivity. Qed.

Example ex_cancel_stops_twice :
  option_map (fun w => (pool w, length (published w)))
             (Cancel ex_Clear false ex_started)
  = Some ([Pool_WorkerStop true; Pool_WorkerStop true], 2).
Proof. reflexivity. Qed.

(** After [Cancel()] on a started job two finalize operations are under
    way; the reply of the first resets [is_stopping_] while the second is
    still with the pool. *)
Example ex_overlapping_finalize :
  option_map (fun w => (is_stopping_ (job w), is_stopped_ (job w), pool w))
             (run ex_Clear false
                  [Call_Initialize (ex_owner 7) (Some 1) 3%Z;
                   Call_StartPrinting; Call_Cancel;
                   Pool_Completes; Loop_RunTask]
                  (World_new 0))
  = Some (false, true, [Pool_WorkerStop true]).
Proof. reflexivity. Qed.

(** ** C1 *)

Lemma Cancel_while_canceling_witness :
  is_canceling_ (job ex_canceling) = true /\
  Cancel ex_Clear false ex_canceling = Some ex_canceling.
Proof.
  split; [reflexivity|].
  apply (Cancel_while_canceling_is_ignored ex_Clear false ex_canceling).
  reflexivity.
Defined.

(** ** C2 *)

(** C2 fails on the code: after start, stop and a second start, the
    completion of the first stop sets [is_stopped_] on a pending job. *)
Lemma pending_and_stopped_together :
  ~ pending_stopped_exclusive 0 ex_Clear false.
Proof.
  intro H.
  assert (R : reachable 0 ex_Clear false (ex_after ex_restart_trace)).
  { apply (run_reachable ex_restart_trace (reachable_new 0 ex_Clear false)).
    vm_compute. reflexivity. }
  specialize (H _ R). vm_compute in H. discriminate H.
Qed.

Lemma pending_excludes_stopped_witness :
  reachable_idle_start 0 ex_Clear false ex_started /\
  is_job_pending_ (job ex_started) && is_stopped_ (job ex_started) = false.
Proof.
  assert (R : reachable_idle_start 0 ex_Clear false ex_started).
  { apply (idle_step Call_StartPrinting)
      with (w := ex_initialized 7);
      [|split; vm_compute; reflexivity|vm_compute; reflexivity].
    apply (idle_step (Call_Initialize (ex_owner 7) (Some 1) 3%Z))
      with (w := World_new 0); [|exact I|vm_compute; reflexivity].
    apply idle_new. }
  split; [exact R|].
  exact (pending_excludes_stopped R).
Defined.

(** ** C3 *)

(** C3 fails on the code for a coordinator that is already canceling:
    nothing is published. *)
Lemma Cancel_while_canceling_publishes_nothing :
  ~ Cancel_always_publishes_FAILED ex_Clear false.
Proof.
  intro H. destruct (H ex_canceling) as (w' & p & E & Hp & _).
  assert (E' : Cancel ex_Clear false ex_canceling = Some ex_canceling)
    by reflexivity.
  rewrite E' in E. injection E as <-.
  apply (f_equal (@length _)) in Hp. rewrite length_app in Hp.
  cbn in Hp. lia.
Qed.

Lemma Cancel_publishes_FAILED_witness :
  is_canceling_ (job ex_started) = false /\
  worker_ (job ex_started)
  = Some (mkWorker true [Worker_OnDocumentChanged (Some 0);
                         Worker_StartPrinting (Some 0)] 0) /\
  exists w',
    Cancel ex_Clear false ex_started = Some w' /\
    is_job_pending_ (job w') = false.
Proof.
  split; [reflexivity|]. split; [reflexivity|].
  destruct (proj1 (Cancel_publishes_FAILED_then_stops ex_Clear false)
              ex_started
              (mkWorker true [Worker_OnDocumentChanged (Some 0);
                              Worker_StartPrinting (Some 0)] 0)
              eq_refl eq_refl)
    as (w3 & w4 & w' & E & _ & _ & _ & _ & _ & _ & _ & _ & _ & _ & _ & _ & Hp).
  exists w'. split; [exact E|]. rewrite Hp. reflexivity.
Defined.

(** ** C4 *)

(** The worker reports [DOC_DONE]; before the continuation runs the job
    is stopped and started again, and the pool finishes the worker. *)
Definition ex_late_document_done : list (Action nat) :=
  [Call_Initialize (ex_owner 7) (Some 1) 3%Z;
   Call_StartPrinting;
   Worker_Notifies (JobEventDetails.mk JobEventDetails.DOC_DONE (Some 0) None);
   Call_Stop;
   Call_StartPrinting;
   Pool_Completes].

Example ex_late_document_done_publishes :
  option_map
    (fun w => (map (fun p => JobEventDetails.type (pub_details p))
                   (published w),
               is_job_pending_ (job w)))
    (run ex_Clear false (ex_late_document_done ++ [Loop_RunTask])
         (World_new 0))
  = Some ([JobEventDetails.NEW_DOC; JobEventDetails.DOC_DONE;
           JobEventDetails.NEW_DOC; JobEventDetails.JOB_DONE], true).
Proof. reflexivity. Qed.

(** C4 fails on the code when the thread of the worker is gone by the
    time the continuation runs: [Stop()] then leaves [is_job_pending_]
    alone, and [JOB_DONE] is published with the job still pending. *)
Lemma JOB_DONE_with_job_still_pending :
  ~ DOC_DONE_always_ends_pending 0 ex_Clear false.
Proof.
  intro H.
  assert (R : reachable 0 ex_Clear false (ex_after ex_late_document_done)).
  { apply (run_reachable ex_late_document_done (reachable_new 0 ex_Clear false)).
    vm_compute. reflexivity. }
  assert (Q : ui_queue (ex_after ex_late_document_done)
              = Task_OnDocumentDone :: [Task_HoldUntilStopIsCalled])
    by (vm_compute; reflexivity).
  assert (E : step ex_Clear false Loop_RunTask (ex_after ex_late_document_done)
              = Some (ex_after (ex_late_document_done ++ [Loop_RunTask])))
    by (vm_compute; reflexivity).
  specialize (H _ _ _ R Q E). vm_compute in H. discriminate H.
Qed.

Lemma DOC_DONE_witness :
  loop_alive (mkWorker true [Worker_OnDocumentChanged (Some 0);
                             Worker_StartPrinting (Some 0)] 0) = true /\
  ui_queue ex_document_done = [Task_OnDocumentDone] /\
  exists w1 w2,
    Stop false ex_document_done = Some w1 /\
    run_task ex_Clear false Task_OnDocumentDone ex_document_done = Some w2 /\
    published w2 = published ex_document_done ++ [mkPub job_done_event (job w1)] /\
    is_job_pending_ (job w2) = false.
Proof.
  split; [reflexivity|]. split; [reflexivity|].
  destruct (DOC_DONE_is_deferred_then_JOB_DONE ex_Clear false ex_document_done
              (wk := mkWorker true [Worker_OnDocumentChanged (Some 0);
                                    Worker_StartPrinting (Some 0)] 0)
              eq_refl)
    as (_ & (w1 & w2 & E1 & E2 & _ & _ & Hp & _ & _ & Hpend) & _).
  exists w1, w2. repeat split; try assumption. exact (Hpend eq_refl).
Defined.

(** ** C5 *)

Lemma StartPrinting_witness :
  worker_ (job (ex_initialized 7))
  = Some (mkWorker true [Worker_OnDocumentChanged (Some 0)] 0) /\
  StartPrinting ex_Clear false ex_started = Some ex_started /\
  exists w',
    StartPrinting ex_Clear false (ex_initialized 7) = Some w' /\
    is_job_pending_ (job w') = true.
Proof.
  split; [reflexivity|]. split.
  - apply (StartPrinting_guard_and_order ex_Clear false ex_started
             (wk := mkWorker true [Worker_OnDocumentChanged (Some 0);
                                   Worker_StartPrinting (Some 0)] 0)
             eq_refl).
    right. reflexivity.
  - destruct (StartPrinting_guard_and_order ex_Clear false (ex_initialized 7)
                (wk := mkWorker true [Worker_OnDocumentChanged (Some 0)] 0)
                eq_refl) as [_ H].
    destruct (H eq_refl eq_refl) as (w' & E & _ & Hp & _).
    exists w'. split; assumption.
Defined.

(** ** C6 *)

Lemma FlushJob_witness :
  (exists sched w',
     FlushJob ex_Clear false 10 sched ex_started = Returned true w' /\
     is_job_pending_ (job w') = true) /\
  (exists w',
     FlushJob ex_Clear false 10 [Loop_RunTask] ex_document_done
     = Returned true w' /\
     is_job_pending_ (job w') = false).
Proof.
  split.
  - destruct (FlushJob_reports_success ex_Clear false 10 ex_started)
      as (_ & (sched & w' & E & Hj & _) & _).
    exists sched, w'. split; [exact E|]. rewrite Hj. reflexivity.
  - destruct (FlushJob_reports_success ex_Clear false 10 ex_document_done)
      as (_ & _ & H).
    destruct (H (mkWorker true [Worker_OnDocumentChanged (Some 0);
                                Worker_StartPrinting (Some 0)] 0)
                [] eq_refl eq_refl eq_refl) as (w' & E & Hp & _).
    exists w'. split; assumption.
Defined.

(** ** C7 *)

Definition ex_document : PrintedDocument nat :=
  mkDocument 0 7 (Some 1) 42%Z 3%Z.

Lemma UpdatePrintedDocument_witness :
  same_document (document_ (job ex_started)) (Some ex_document) = true /\
  UpdatePrintedDocument (Some ex_document) ex_started = ex_started.
Proof.
  split; [reflexivity|].
  exact (proj1 (UpdatePrintedDocument_same_is_noop (Some ex_document) ex_started)
               eq_refl).
Defined.

(** ** C8 *)

(** C8 fails on the code for the change to the null document: two
    coordinators whose cached settings differ keep them, so what is cached
    afterwards is not taken from the new document. *)
Lemma settings_survive_null_document :
  ~ settings_copied_on_every_change nat.
Proof.
  intros (copy & _ & H).
  pose proof (H (ex_initialized 1) None eq_refl) as H1.
  pose proof (H (ex_initialized 2) None eq_refl) as H2.
  vm_compute in H1, H2. congruence.
Qed.

Lemma settings_witness :
  same_document (document_ (job ex_started))
                (Some (mkDocument 5 9 None 0%Z 1%Z)) = false /\
  settings_ (job (UpdatePrintedDocument (Some (mkDocument 5 9 None 0%Z 1%Z))
                                        ex_started)) = 9 /\
  settings_ (job (UpdatePrintedDocument None ex_started)) = 7 /\
  exists w',
    Observe ex_Clear false NOTIFICATION_PRINT_JOB_EVENT failed_event ex_started
    = Some w' /\
    settings_ (job w') = 0.
Proof.
  destruct (settings_follow_document_and_failure ex_Clear false ex_started)
    as (H1 & H2 & H3).
  split; [reflexivity|]. split; [|split].
  - apply (H1 (mkDocument 5 9 None 0%Z 1%Z)). reflexivity.
  - exact H2.
  - apply (H3 (mkWorker true [Worker_OnDocumentChanged (Some 0);
                              Worker_StartPrinting (Some 0)] 0) failed_event);
      reflexivity.
Defined.

(** ** C9 *)

(** C9 fails on the code where two finalize operations overlap: after
    [Cancel()] on a started job the reply of the first resets
    [is_stopping_] while the second is still with the pool. *)
Lemma finalize_outlives_is_stopping :
  ~ stopping_exactly_while_finalizing 0 ex_Clear false.
Proof.
  intro H.
  assert (R : reachable 0 ex_Clear false
                (ex_after [Call_Initialize (ex_owner 7) (Some 1) 3%Z;
                           Call_StartPrinting; Call_Cancel;
                           Pool_Completes; Loop_RunTask])).
  { apply (run_reachable
             [Call_Initialize (ex_owner 7) (Some 1) 3%Z;
              Call_StartPrinting; Call_Cancel; Pool_Completes; Loop_RunTask]
             (reachable_new 0 ex_Clear false)).
    vm_compute. reflexivity. }
  specialize (H _ R). vm_compute in H. discriminate H.
Qed.

Lemma ControlledWorkerShutdown_witness :
  exists w1 w3,
    ControlledWorkerShutdown false ex_started = Some w1 /\
    is_stopping_ (job w1) = true /\
    pool w1 = [Pool_WorkerStop true] /\
    run_task ex_Clear false Task_HoldUntilStopIsCalled ex_started = Some w3 /\
    is_stopped_ (job w3) = true /\
    is_stopping_ (job w3) = false.
Proof.
  destruct (ControlledWorkerShutdown_finalize 0 ex_Clear false ex_started
              (wk := mkWorker true [Worker_OnDocumentChanged (Some 0);
                                    Worker_StartPrinting (Some 0)] 0)
              eq_refl)
    as ((w0 & w1 & E1 & _ & _ & _ & Hs1 & _ & Hp1) & _ &
        (w3 & E3 & Hd3 & Hs3 & _) & _).
  exists w1, w3. repeat split; assumption.
Defined.

(** ** Further properties, on the concrete coordinator *)

(** The worker of [ex_started]: the document and the start request are
    in its queue. *)
Definition ex_started_worker : PrintJobWorker :=
  mkWorker true [Worker_OnDocumentChanged (Some 0);
                 Worker_StartPrinting (Some 0)] 0.

(** The worker once the job was stopped and the pool has finished it:
    [Stop()] told it that the document is gone. *)
Definition ex_stopped_worker : PrintJobWorker :=
  mkWorker false [Worker_OnDocumentChanged (Some 0);
                  Worker_StartPrinting (Some 0);
                  Worker_OnDocumentChanged None] 0.

(** The job was stopped and the pool has finished the worker. *)
Definition ex_worker_gone : World nat :=
  ex_after [Call_Initialize (ex_owner 7) (Some 1) 3%Z; Call_StartPrinting;
            Call_Stop; Pool_Completes].

(** A flush timed out and left its timer behind. *)
Definition ex_flushed : World nat :=
  ex_after [Call_Initialize (ex_owner 7) (Some 1) 3%Z; Call_StartPrinting;
            Enter_FlushJob 5%Z].

Lemma ex_started_reachable : reachable 0 ex_Clear false ex_started.
Proof.
  apply (run_reachable
           [Call_Initialize (ex_owner 7) (Some 1) 3%Z; Call_StartPrinting]
           (reachable_new 0 ex_Clear false)).
  vm_compute. reflexivity.
Qed.

Lemma ex_flushed_reachable : reachable 0 ex_Clear false ex_flushed.
Proof.
  apply (run_reachable
           [Call_Initialize (ex_owner 7) (Some 1) 3%Z; Call_StartPrinting;
            Enter_FlushJob 5%Z]
           (reachable_new 0 ex_Clear false)).
  vm_compute. reflexivity.
Qed.

Lemma is_canceling_is_clear_witness :
  reachable 0 ex_Clear false ex_started /\
  is_canceling_ (job ex_started) = false.
Proof.
  split; [exact ex_started_reachable|].
  exact (is_canceling_is_clear_between_operations ex_started_reachable).
Defined.

Lemma Initialize_installs_witness :
  reachable 0 ex_Clear false ex_started /\
  cookie (job (Initialize (ex_owner 9) None 1%Z ex_started)) = 42%Z /\
  settings (job (Initialize (ex_owner 9) None 1%Z ex_started)) = 9.
Proof.
  split; [exact ex_started_reachable|].
  destruct (Initialize_installs_its_document (ex_owner 9) None 1%Z
              ex_started_reachable)
    as (_ & Hc & Hs & _).
  split; [exact Hc | exact Hs].
Defined.

Lemma Stop_drops_the_document_witness :
  worker_ (job ex_started) = Some ex_started_worker /\
  exists w',
    Stop false ex_started = Some w' /\
    document_ (job w') = None /\
    published w' = published ex_started.
Proof.
  split; [reflexivity|].
  destruct (Stop_drops_the_document_silently false ex_started
              (wk := ex_started_worker) eq_refl)
    as (w' & E & Hd & _ & Hp & _).
  exists w'. repeat split; assumption.
Defined.

Lemma operations_need_the_worker_witness :
  worker_ (job (World_new 0)) = None /\
  Stop false (World_new 0) = None /\
  StartPrinting ex_Clear false (World_new 0) = None.
Proof.
  split; [reflexivity|].
  destruct (@operations_need_the_worker nat ex_Clear false (World_new 0)
              eq_refl)
    as (H1 & H2 & _).
  split; [exact H1 | exact H2].
Defined.

Lemma StartPrinting_twice_witness :
  StartPrinting ex_Clear false (ex_initialized 7) = Some ex_started /\
  StartPrinting ex_Clear false ex_started = Some ex_started.
Proof.
  assert (E : StartPrinting ex_Clear false (ex_initialized 7) = Some ex_started)
    by (vm_compute; reflexivity).
  split; [exact E|].
  exact (@StartPrinting_twice nat ex_Clear false _ _ E).
Defined.

Lemma is_stopped_witness :
  step ex_Clear false Call_Cancel ex_started
  = Some (ex_after [Call_Initialize (ex_owner 7) (Some 1) 3%Z;
                    Call_StartPrinting; Call_Cancel]) /\
  is_stopped_ (job ex_started) = false /\
  is_stopped_
    (job (ex_after [Call_Initialize (ex_owner 7) (Some 1) 3%Z;
                    Call_StartPrinting; Call_Cancel])) <> true.
Proof.
  assert (E : step ex_Clear false Call_Cancel ex_started
              = Some (ex_after [Call_Initialize (ex_owner 7) (Some 1) 3%Z;
                                Call_StartPrinting; Call_Cancel]))
    by (vm_compute; reflexivity).
  split; [exact E|]. split; [reflexivity|].
  intro H.
  destruct (proj2 (@is_stopped_is_set_once_by_the_reply nat ex_Clear false
                     _ _ _ E) eq_refl H)
    as (Ha & _).
  discriminate Ha.
Defined.

Lemma Stop_disarms_witness :
  reachable 0 ex_Clear false ex_flushed /\
  HasWeakPtrs ex_flushed = true /\
  exists w',
    Stop false ex_flushed = Some w' /\
    HasWeakPtrs w' = false /\
    run_stack (loop_fire_timer w') = run_stack w'.
Proof.
  split; [exact ex_flushed_reachable|]. split; [reflexivity|].
  assert (E : exists w', Stop false ex_flushed = Some w')
    by (vm_compute; eexists; reflexivity).
  destruct E as (w' & E). exists w'. split; [exact E|].
  destruct (@Stop_disarms_the_flush_timers nat 0 ex_Clear false _ _
              ex_flushed_reachable E)
    as (H1 & H2).
  split; [exact H1 | exact (H2 1)].
Defined.


Lemma Cancel_on_a_live_worker_witness :
  is_canceling_ (job ex_started) = false /\
  worker_ (job ex_started) = Some ex_started_worker /\
  loop_alive ex_started_worker = true /\
  exists w',
    Cancel ex_Clear false ex_started = Some w' /\
    length (pool w') = 2 /\
    option_map cancel_calls (worker_ (job w')) = Some 1.
Proof.
  split; [reflexivity|]. split; [reflexivity|]. split; [reflexivity|].
  destruct (Cancel_on_a_live_worker ex_Clear false ex_started
              (wk := ex_started_worker) eq_refl eq_refl eq_refl)
    as (w' & wk' & E & Hw & Hn & _ & _ & _ & _ & _ & Hp & _).
  exists w'. split; [exact E|]. split.
  - rewrite Hp. reflexivity.
  - rewrite Hw. cbn [option_map]. rewrite Hn. reflexivity.
Defined.

Lemma Cancel_with_the_thread_gone_witness :
  is_canceling_ (job ex_worker_gone) = false /\
  option_map loop_alive (worker_ (job ex_worker_gone)) = Some false /\
  exists w',
    Cancel ex_Clear false ex_worker_gone = Some w' /\
    pool w' = pool ex_worker_gone /\
    length (published w') = S (length (published ex_worker_gone)).
Proof.
  split; [reflexivity|]. split; [reflexivity|].
  destruct (Cancel_with_the_thread_gone ex_Clear false ex_worker_gone
              (wk := ex_stopped_worker) eq_refl eq_refl eq_refl)
    as (w' & E & _ & Hp & _ & _ & _ & _ & _ & _ & Hpub & _).
  exists w'. split; [exact E|]. split; [exact Hp|].
  rewrite Hpub, length_app. cbn [length]. lia.
Defined.

Lemma Cancel_then_reply_witness :
  is_canceling_ (job ex_started) = false /\
  worker_ (job ex_started) = Some ex_started_worker /\
  loop_alive ex_started_worker = true /\
  ui_queue ex_started = [] /\
  exists w',
    run ex_Clear false [Call_Cancel; Pool_Completes; Loop_RunTask] ex_started
    = Some w' /\
    is_stopped_ (job w') = true /\
    destructor_DCHECKs (job w') = true.
Proof.
  split; [reflexivity|]. split; [reflexivity|]. split; [reflexivity|].
  split; [reflexivity|].
  destruct (Cancel_then_reply_reaches_stopped ex_Clear false ex_started
              (wk := ex_started_worker) eq_refl eq_refl eq_refl eq_refl)
    as (w' & E & Hs & _ & _ & _ & Hd).
  exists w'. repeat split; assumption.
Defined.

Lemma normal_completion_witness :
  is_canceling_ (job ex_started) = false /\
  worker_ (job ex_started) = Some ex_started_worker /\
  loop_alive ex_started_worker = true /\
  registrar_ (job ex_started) = true /\
  ui_queue ex_started = [] /\
  exists w',
    run ex_Clear false
        [Worker_Notifies
           (JobEventDetails.mk JobEventDetails.DOC_DONE (Some 0) None);
         Loop_RunTask; Pool_Completes; Loop_RunTask] ex_started
    = Some w' /\
    is_stopped_ (job w') = true /\
    destructor_DCHECKs (job w') = true.
Proof.
  split; [reflexivity|]. split; [reflexivity|]. split; [reflexivity|].
  split; [reflexivity|]. split; [reflexivity|].
  destruct (normal_completion_reaches_stopped ex_Clear false ex_started
              (wk := ex_started_worker) eq_refl eq_refl eq_refl eq_refl
              eq_refl (Some 0) None)
    as (w' & E & _ & _ & Hs & _ & _ & _ & Hd).
  exists w'. repeat split; assumption.
Defined.
